(** * HighRateAnalysis: the track-cut selection engine and the DUT analysis

    A shallow embedding of [mod/track_cuts.py] and of the data-access part of
    [src/dut_analysis.py].  Arrays are lists, Python exceptions are an error
    monad, the cut registry (a Python dict) is an insertion-ordered
    association list, and the objects of the h5py data file are a tree. *)

From Stdlib Require Import String List ZArith Bool Arith Lia Permutation.
Import ListNotations.
Local Open Scope string_scope.
Local Open Scope nat_scope.
Set Warnings "-register-all".

(** ** Exceptions *)

Inductive exn : Type :=
| KeyError | OSError | IndexError | ValueError | AttributeError
| ShapeError | LengthError | UnknownCutError.

Inductive res (A : Type) : Type :=
| Ok (a : A)
| Raise (e : exn).
Arguments Ok {A} a.
Arguments Raise {A} e.

Definition bind {A B : Type} (m : res A) (k : A -> res B) : res B :=
  match m with
  | Ok a => k a
  | Raise e => Raise e
  end.

Notation "x <- m ;; k" := (bind m (fun x => k))
  (at level 61, m at next level, right associativity).

Definition fmap {A B : Type} (f : A -> B) (m : res A) : res B :=
  x <- m ;; Ok (f x).

(** ** Arrays *)

(** A column of the data file.  The code only moves the values around, so a
    number stands for each of them. *)
Definition ndarray := list Z.

(** Boolean-mask indexing [data[mask]] on arrays of one length: the values at
    the positions where the mask holds, in order. *)
Fixpoint select {A : Type} (m : list bool) (data : list A) : list A :=
  match m, data with
  | b :: m', x :: data' => if b then x :: select m' data' else select m' data'
  | _, _ => []
  end.

(** What a method of the cut classes hands to numpy as an index once the
    default is resolved: [...] or a boolean array. *)
Inductive sel : Type :=
| Ellipsis
| Mask (m : list bool).

(** The [cut] argument of the cut classes: [None], [...] or a boolean array. *)
Inductive cut : Type :=
| CNone
| CEllipsis
| CMask (m : list bool).

(** The [cut] argument of the analysis getters, which also accept a Python
    [bool]. *)
Inductive cutarg : Type :=
| ArgBool (b : bool)
| ArgCut (c : cut).

(** numpy's [data[c]]: [...] selects everything, a boolean array must have the
    length of the data. *)
Definition getitem_nd {A : Type} (data : list A) (c : sel) : res (list A) :=
  match c with
  | Ellipsis => Ok data
  | Mask m => if length m =? length data then Ok (select m data) else Raise IndexError
  end.

(** ** The h5py data file *)

Inductive h5obj : Type :=
| Dataset (a : ndarray)
| Group (members : list (string * h5obj)).

Fixpoint assoc {V : Type} (k : string) (l : list (string * V)) : option V :=
  match l with
  | [] => None
  | (k', v) :: l' => if String.eqb k k' then Some v else assoc k l'
  end.

(** [o[k]] for a string key that is a member name: a group looks its member
    up and raises [KeyError] when there is none; a plain dataset has no named
    fields.  h5py reads a key with ['/'] in it as a path through several
    groups; such keys are not covered here (see [plain_name]). *)
Definition getitem (o : h5obj) (k : string) : res h5obj :=
  match o with
  | Group members =>
      match assoc k members with
      | Some v => Ok v
      | None => Raise KeyError
      end
  | Dataset _ => Raise ValueError
  end.

(** [o.size]: only datasets have one. *)
Definition size (o : h5obj) : res nat :=
  match o with
  | Dataset a => Ok (length a)
  | Group _ => Raise AttributeError
  end.

(** Everything outside the process that [load_file] touches: the converter,
    the file system behind [h5py.File], and the dummy-data provider. *)
Record World : Type := {
  Converter_run : res unit;
  h5py_File : string -> res (list (string * h5obj));
  Dummy_load_file : res h5obj
}.

Module DUTAnalysis.

(** The attributes [__init__] sets under DATA and INFO. *)
Record t : Type := mk {
  F : h5obj;
  Plane : string;          (* str(self.Plane), the name of the DUT's group *)
  Data : h5obj;
  N : nat;
  NEvents : nat;
  NTracks : nat
}.

(** [__init__], from [self.Data = self.F[str(self.Plane)]] to
    [self.NTracks = ...], on the file [load_file] returned. *)
Definition init (plane : string) (f : h5obj) : res t :=
  data <- getitem f plane ;;
  n <- (c <- getitem data "Clusters" ;; x <- getitem c "X" ;; size x) ;;
  nev <- (tr <- getitem f "Tracks" ;; x <- getitem tr "NTracks" ;; size x) ;;
  ntr <- (tr <- getitem f "Tracks" ;; x <- getitem tr "Size" ;; size x) ;;
  Ok (mk f plane data n nev ntr).

Definition warning_text (file_name : string) : string :=
  "could not load data file " ++ file_name ++ " -> start with dummy".

(** The body of the [try] block of [load_file]. *)
Definition try_open (w : World) (file_name plane : string) : res h5obj :=
  members <- h5py_File w file_name ;;
  let f := Group members in
  _ <- getitem f "Tracks" ;;
  _ <- getitem f plane ;;
  Ok f.

(** [load_file]: the warnings it prints and what it returns or raises. *)
Definition load_file (w : World) (file_name plane : string) (test : bool)
  : list string * res h5obj :=
  if negb test then
    match Converter_run w with
    | Raise e => ([], Raise e)
    | Ok _ =>
        match try_open w file_name plane with
        | Ok f => ([], Ok f)
        | Raise KeyError | Raise OSError =>
            ([warning_text file_name], Dummy_load_file w)
        | Raise e => ([], Raise e)
        end
    end
  else ([], Dummy_load_file w).

Section GetData.
(** [self.Cut], the DUT's cut object, called as [self.Cut(cut, data, pl)];
    and numpy's [array] on an h5py group.  Both live outside these files. *)
Variable Cut : cut -> ndarray -> option nat -> res ndarray.
Variable array_of_group : list (string * h5obj) -> res ndarray.

Definition array (o : h5obj) : res ndarray :=
  match o with
  | Dataset a => Ok a
  | Group members => array_of_group members
  end.

(** The raw column [get_data] reads before any selection. *)
Definition column (self : t) (grp : string) (key : option string) : res ndarray :=
  data <- getitem (Data self) grp ;;
  match key with
  | None => array data
  | Some k => d <- getitem data k ;; array d
  end.

Definition get_data (self : t) (grp : string) (key : option string)
  (c : cutarg) (pl : option nat) : res ndarray :=
  data <- column self grp key ;;
  match c with
  | ArgBool _ => Ok data
  | ArgCut c' => Cut c' data pl
  end.
End GetData.

End DUTAnalysis.

(** ** The cut registry: the base class [DUTCut] of [mod/dut_cuts.py]

    The module of the base class is not among the files; its data model and
    methods follow sections 3 and 4 of the design description. *)

Module DUTCut.

(** Modelled from the spec: the index spaces of section 3 (the base module
    with the space model is missing). *)
Inductive IndexSpace : Type :=
| Event
| Track
| Cluster (plane : nat).

(** Modelled from the spec: whether two spaces are the same space (equality
    of the missing enumeration). *)
Definition IndexSpace_eqb (a b : IndexSpace) : bool :=
  match a, b with
  | Event, Event => true
  | Track, Track => true
  | Cluster p, Cluster q => p =? q
  | _, _ => false
  end.

(** Modelled from the spec: a track of section 3 (the track data is
    missing), as the list of the planes it has a matched cluster on; it has
    at most one cluster on a plane. *)
Definition track := list nat.

(** Modelled from the spec: the analysis context of section 6 (missing).
    Every track belongs to exactly one event and an event has zero or more
    tracks: an event is the list of its tracks.  Track order is event order;
    cluster order on a plane is a subsequence of track order. *)
Record Context : Type := {
  events : list (list track);
  dut_plane : nat
}.

(** Modelled from the spec: Track space of section 3 (missing), the tracks
    of all events in event order. *)
Definition tracks (ctx : Context) : list track := concat (events ctx).

(** Modelled from the spec: whether a track has a matched cluster on a plane
    (the matching is missing). *)
Definition on_plane (p : nat) (t : track) : bool := existsb (Nat.eqb p) t.

(** Modelled from the spec: the sizes of the three spaces of section 3
    (missing): events, tracks, and the tracks with a cluster on the plane. *)
Definition space_size (ctx : Context) (s : IndexSpace) : nat :=
  match s with
  | Event => length (events ctx)
  | Track => length (tracks ctx)
  | Cluster p => length (filter (on_plane p) (tracks ctx))
  end.

(** Modelled from the spec: the broadcast of [ev2trk] in section 4.3
    (missing): each event's value once per track of that event, in track
    order. *)
Fixpoint broadcast {A : Type} (x : list A) (evs : list (list track)) : list A :=
  match x, evs with
  | v :: x', e :: evs' => repeat v (length e) ++ broadcast x' evs'
  | _, _ => []
  end.

(** Modelled from the spec: [ev2trk] of section 4.3 (missing). *)
Definition ev2trk {A : Type} (ctx : Context) (x : list A) : res (list A) :=
  if length x =? length (events ctx) then Ok (broadcast x (events ctx))
  else Raise LengthError.

(** Modelled from the spec: [trk2pl] of section 4.3 (missing): the
    subsequence of the tracks with a matched cluster on the plane.  An array
    that is not of Track length is a [ShapeError] in the sense of
    section 7. *)
Definition trk2pl {A : Type} (ctx : Context) (data : list A) (pl : nat) : res (list A) :=
  if length data =? length (tracks ctx)
  then Ok (select (map (on_plane pl) (tracks ctx)) data)
  else Raise ShapeError.

(** Modelled from the spec: the [Cut] of section 3 (missing). *)
Record Cut : Type := {
  name : string;
  priority : Z;
  mask : list bool;
  space : IndexSpace;
  description : string;
  stale : bool
}.

(** Modelled from the spec: the [CutRegistry] of section 3 (missing): the
    entries in registration order, the native space and the shared
    context. *)
Record Registry : Type := {
  ctx : Context;
  native : IndexSpace;
  cuts : list Cut
}.

(** Modelled from the spec: the registry of section 3 (missing) with its
    entries replaced; context and native space stay. *)
Definition with_cuts (r : Registry) (cs : list Cut) : Registry :=
  {| ctx := ctx r; native := native r; cuts := cs |}.

(** A method that may change the registry and may raise. *)
Definition cmd (A : Type) : Type := Registry -> Registry * res A.

(** One statement after the other; an exception in the first ends both and
    leaves the registry as the first left it. *)
Definition seq {A B : Type} (m : cmd A) (k : cmd B) : cmd B :=
  fun r =>
    match m r with
    | (r', Ok _) => k r'
    | (r', Raise e) => (r', Raise e)
    end.

(** Modelled from the spec: what a generator (missing) hands to [register],
    a mask and the space it was computed in; section 4.1 infers a cut's space
    from the generator that produced it. *)
Definition tagged : Type := IndexSpace * list bool.

(** Modelled from the spec: [create] of section 4.1 (missing). *)
Definition create (c : Context) (n : string) (m : tagged) (p : Z) (d : string) : res Cut :=
  if length (snd m) =? space_size c (fst m)
  then Ok {| name := n; priority := p; mask := snd m; space := fst m;
             description := d; stale := false |}
  else Raise ShapeError.

(** Modelled from the spec: whether an entry with the name exists, the test
    of [register] in section 4.2 (missing). *)
Definition has (n : string) (cs : list Cut) : bool :=
  existsb (fun c => String.eqb (name c) n) cs.

(** Modelled from the spec: replacing the entry under a cut's name, section 3
    (missing). *)
Definition replace (c x : Cut) : Cut :=
  if String.eqb (name x) (name c) then c else x.

(** Modelled from the spec: storing a new Cut in the name-to-Cut mapping of
    section 3 (missing), as assignment in a dict: an existing key keeps its
    place, a new key goes last. *)
Definition store (c : Cut) (cs : list Cut) : list Cut :=
  if has (name c) cs then map (replace c) cs else cs ++ [c].

(** Modelled from the spec: [register] of section 4.2 (missing).  The mask
    handed in is a Cut only if it fits its space: sections 3 and 7 make a
    mismatch fatal at the point of registration, always.  For a fitting mask,
    an entry under the name and no [redo]: the entry is kept; otherwise the
    new Cut is stored.  The cache on disk is outside the registry. *)
Definition register (n : string) (m : tagged) (p : Z) (d : string) (redo : bool)
  : cmd unit :=
  fun r =>
    match create (ctx r) n m p d with
    | Raise e => (r, Raise e)
    | Ok c =>
        if has n (cuts r) && negb redo then (r, Ok tt)
        else (with_cuts r (store c (cuts r)), Ok tt)
    end.

(** Modelled from the spec: the conversion of an entry declared in a coarser
    space to the native space, from [combined] in section 4.2 (missing).
    The spec converts nothing else, so any other entry is taken as it is. *)
Definition coarser_conv {A : Type} (c : Context) (from to : IndexSpace) (x : list A)
  : res (list A) :=
  if IndexSpace_eqb from to then Ok x
  else match from, to with
       | Event, Track => ev2trk c x
       | Event, Cluster p => t <- ev2trk c x ;; trk2pl c t p
       | Track, Cluster p => trk2pl c x p
       | _, _ => Ok x
       end.

(** Modelled from the spec: a cut's mask in the registry's native space,
    from [combined] in section 4.2 (missing). *)
Definition to_native (r : Registry) (c : Cut) : res (list bool) :=
  coarser_conv (ctx r) (space c) (native r) (mask c).

Fixpoint map2 {A B C : Type} (f : A -> B -> C) (a : list A) (b : list B) : list C :=
  match a, b with
  | x :: a', y :: b' => f x y :: map2 f a' b'
  | _, _ => []
  end.

(** Modelled from the spec: the element-wise AND of [combined] in section
    4.2 (missing) on two masks over one space; masks of different lengths
    are a [ShapeError] in the sense of section 7. *)
Definition and_masks (a b : list bool) : res (list bool) :=
  if length a =? length b then Ok (map2 andb a b) else Raise ShapeError.

(** Modelled from the spec: one step of the AND-reduction of [combined] in
    section 4.2 (missing). *)
Definition and_step (r : Registry) (acc : res (list bool)) (c : Cut) : res (list bool) :=
  a <- acc ;; m <- to_native r c ;; and_masks a m.

(** Modelled from the spec: [combined] of section 4.2 (missing). *)
Definition combined (r : Registry) : res (list bool) :=
  fold_left (and_step r) (cuts r)
    (Ok (repeat true (space_size (ctx r) (native r)))).

(** Modelled from the spec: steps 1 and 2 of section 4.4, the base class's
    [__call__] on a cut alone (missing). *)
Definition call (r : Registry) (c : cut) : res sel :=
  match c with
  | CNone => fmap Mask (combined r)
  | CEllipsis => Ok Ellipsis
  | CMask m => Ok (Mask m)
  end.

End DUTCut.

(** ** [mod/track_cuts.py] *)

Module TrackCut.
Import DUTCut.

(** What [__call__] returns: the cut itself when no data is given, the
    selected data otherwise. *)
Inductive retval : Type :=
| RCut (c : sel)
| RData (a : ndarray).

Section Methods.
(** The methods [TrackCut] inherits, and the generators [make] calls. *)
Variable super_call : cut -> res sel.
Variable ev2trk : ndarray -> res ndarray.
Variable trk2pl : ndarray -> option nat -> res ndarray.
Variable make_ev : list bool -> nat -> list bool.
Variable register : string -> tagged -> Z -> string -> cmd unit.
Variables make_trigger_phase make_trk_residual make_fiducial
          make_start_time make_chi2 : bool -> tagged.

Definition call (Ana : DUTAnalysis.t) (c : cut) (data : option ndarray)
  (pl : option nat) : res retval :=
  c <- super_call c ;;
  match data with
  | None => Ok (RCut c)
  | Some data =>
      if length data =? DUTAnalysis.NEvents Ana then
        t <- ev2trk data ;; fmap RData (getitem_nd t c)
      else if match c with
              | Ellipsis => false
              | Mask m => length m =? DUTAnalysis.N Ana
              end then
        p <- trk2pl data pl ;; fmap RData (getitem_nd p c)
      else fmap RData (getitem_nd data c)
  end.

Definition make (redo : bool) : cmd unit :=
  seq (register "tp" (make_trigger_phase redo) 10 "trigger phase")
 (seq (register "res" (make_trk_residual redo) 20 "tracks with a small residual in the REF")
 (seq (register "fid" (make_fiducial redo) 30 "tracks in fiducial area")
 (seq (register "tstart" (make_start_time redo) 40 "exclude first events")
      (register "chi2" (make_chi2 redo) 50 "small chi2")))).

Definition make_trk (Ana : DUTAnalysis.t) (trks : list bool) : list bool :=
  make_ev trks (DUTAnalysis.NTracks Ana).
End Methods.

End TrackCut.

(** ** Registering several cuts, and the registry invariants *)

(** One call of [register]. *)
Record request : Type := {
  rq_name : string;
  rq_mask : DUTCut.tagged;
  rq_priority : Z;
  rq_description : string;
  rq_redo : bool
}.

Definition register_req (q : request) : DUTCut.cmd unit :=
  DUTCut.register (rq_name q) (rq_mask q) (rq_priority q) (rq_description q) (rq_redo q).

(** The calls of a list one after the other; an exception ends the run. *)
Fixpoint register_all (l : list request) : DUTCut.cmd unit :=
  match l with
  | [] => fun r => (r, Ok tt)
  | q :: l' => DUTCut.seq (register_req q) (register_all l')
  end.

(** The names are the keys of a dict. *)
Definition unique_names (r : DUTCut.Registry) : Prop :=
  NoDup (map DUTCut.name (DUTCut.cuts r)).

(** Every entry went through [create]: its mask has the size of its space. *)
Definition shaped (r : DUTCut.Registry) : Prop :=
  Forall (fun c => length (DUTCut.mask c)
                   = DUTCut.space_size (DUTCut.ctx r) (DUTCut.space c))
         (DUTCut.cuts r).

(** Two registries over one context whose entries differ in order only. *)
Definition same_entries (r r' : DUTCut.Registry) : Prop :=
  DUTCut.ctx r = DUTCut.ctx r' /\ DUTCut.native r = DUTCut.native r' /\
  Permutation (DUTCut.cuts r) (DUTCut.cuts r').

(** The three outcomes of one call of [register], as a relation between the
    registry before and the registry and result after. *)
Inductive registered (q : request) (r : DUTCut.Registry)
  : DUTCut.Registry -> res unit -> Prop :=
| reg_kept k :
    DUTCut.has (rq_name q) (DUTCut.cuts r) && negb (rq_redo q) = true ->
    DUTCut.create (DUTCut.ctx r) (rq_name q) (rq_mask q) (rq_priority q)
      (rq_description q) = Ok k ->
    registered q r r (Ok tt)
| reg_stored k :
    DUTCut.has (rq_name q) (DUTCut.cuts r) && negb (rq_redo q) = false ->
    DUTCut.create (DUTCut.ctx r) (rq_name q) (rq_mask q) (rq_priority q)
      (rq_description q) = Ok k ->
    registered q r (DUTCut.with_cuts r (DUTCut.store k (DUTCut.cuts r))) (Ok tt)
| reg_failed :
    length (snd (rq_mask q))
      <> DUTCut.space_size (DUTCut.ctx r) (fst (rq_mask q)) ->
    registered q r r (Raise ShapeError).

(** [TrackCut.make] over the registry above; [make] passes no [redo] to
    [register], which then takes its default. *)
Definition make_on_registry
    (g_tp g_res g_fid g_tstart g_chi2 : bool -> DUTCut.tagged) (redo : bool)
  : DUTCut.cmd unit :=
  TrackCut.make (fun n m p d => DUTCut.register n m p d false)
    g_tp g_res g_fid g_tstart g_chi2 redo.

(** The requests [make] issues, in its order. *)
Definition make_requests
    (g_tp g_res g_fid g_tstart g_chi2 : bool -> DUTCut.tagged) (redo : bool)
  : list request :=
  [ {| rq_name := "tp"; rq_mask := g_tp redo; rq_priority := 10;
       rq_description := "trigger phase"; rq_redo := false |};
    {| rq_name := "res"; rq_mask := g_res redo; rq_priority := 20;
       rq_description := "tracks with a small residual in the REF"; rq_redo := false |};
    {| rq_name := "fid"; rq_mask := g_fid redo; rq_priority := 30;
       rq_description := "tracks in fiducial area"; rq_redo := false |};
    {| rq_name := "tstart"; rq_mask := g_tstart redo; rq_priority := 40;
       rq_description := "exclude first events"; rq_redo := false |};
    {| rq_name := "chi2"; rq_mask := g_chi2 redo; rq_priority := 50;
       rq_description := "small chi2"; rq_redo := false |} ].

(** ** A small run, used for the examples

    Two events; the first has two tracks, the second one.  The first and the
    third track have a cluster on plane 4, the device under test. *)

Definition run_file : h5obj :=
  Group [ ("Tracks", Group [ ("NTracks", Dataset [2; 1]%Z);
                             ("Size", Dataset [3; 3; 4]%Z) ]);
          ("Plane4", Group [ ("Clusters", Group [ ("X", Dataset [10; 12]%Z);
                                                  ("Charge", Dataset [70; 90]%Z) ]);
                             ("Mask", Dataset [0; 1]%Z) ]) ].

Definition run_ana : DUTAnalysis.t :=
  DUTAnalysis.mk run_file "Plane4"
    (Group [ ("Clusters", Group [ ("X", Dataset [10; 12]%Z);
                                  ("Charge", Dataset [70; 90]%Z) ]);
             ("Mask", Dataset [0; 1]%Z) ])
    2 2 3.

Definition run_ctx : DUTCut.Context :=
  {| DUTCut.events := [ [ [0; 4]; [0] ]; [ [4] ] ]; DUTCut.dut_plane := 4 |}.

Definition run_tracks : DUTCut.Registry :=
  {| DUTCut.ctx := run_ctx; DUTCut.native := DUTCut.Track; DUTCut.cuts := [] |}.

(** [trk2pl] with the plane left out: the plane of the device under test. *)
Definition run_trk2pl (data : ndarray) (pl : option nat) : res ndarray :=
  DUTCut.trk2pl run_ctx data
    match pl with Some p => p | None => DUTCut.dut_plane run_ctx end.

(** An instance of [make_ev] for the examples: the input cut or padded with
    [False] to the requested length. *)
Definition resize (x : list bool) (n : nat) : list bool :=
  firstn n (x ++ repeat false n).


(** The two-cut scenario of section 8 on the three tracks of the run. *)
Definition rq_tp : request :=
  {| rq_name := "tp"; rq_mask := (DUTCut.Track, [true; false; true]);
     rq_priority := 10; rq_description := "trigger phase"; rq_redo := false |}.

Definition rq_fid : request :=
  {| rq_name := "fid"; rq_mask := (DUTCut.Track, [true; true; false]);
     rq_priority := 30; rq_description := "tracks in fiducial area"; rq_redo := false |}.

Definition cut_tp : DUTCut.Cut :=
  {| DUTCut.name := "tp"; DUTCut.priority := 10; DUTCut.mask := [true; false; true];
     DUTCut.space := DUTCut.Track; DUTCut.description := "trigger phase";
     DUTCut.stale := false |}.

Definition cut_fid : DUTCut.Cut :=
  {| DUTCut.name := "fid"; DUTCut.priority := 30; DUTCut.mask := [true; true; false];
     DUTCut.space := DUTCut.Track; DUTCut.description := "tracks in fiducial area";
     DUTCut.stale := false |}.

Definition run_tracks_tp_fid : DUTCut.Registry :=
  DUTCut.with_cuts run_tracks [cut_tp; cut_fid].


(** ** The rest of the data access of [src/dut_analysis.py] *)

(** [__init__] from [if test: return] to the INFO block.  With [test] the
    object keeps no data attributes ([None] here).  The run, the converter
    and the dummy provider are built before, the sub-analyses after; they are
    outside these files. *)
Definition init_data (w : World) (file_name plane : string) (test : bool)
  : list string * res (option DUTAnalysis.t) :=
  if test then ([], Ok None)
  else
    match DUTAnalysis.load_file w file_name plane test with
    | (out, Ok f) => (out, fmap Some (DUTAnalysis.init plane f))
    | (out, Raise e) => (out, Raise e)
    end.


(** A name made of letters and digits, as all the names the getters pass:
    h5py looks such a key up as one member name. *)
Definition is_alnum (c : Ascii.ascii) : bool :=
  let n := Ascii.nat_of_ascii c in
  ((48 <=? n) && (n <=? 57)) || ((65 <=? n) && (n <=? 90))
  || ((97 <=? n) && (n <=? 122)).

Fixpoint all_alnum (s : string) : bool :=
  match s with
  | EmptyString => true
  | String c s' => is_alnum c && all_alnum s'
  end.

Definition plain_name (s : string) : bool :=
  negb (String.eqb s "") && all_alnum s.

Section Getters.
Variable Cut : cut -> ndarray -> option nat -> res ndarray.
Variable array_of_group : list (string * h5obj) -> res ndarray.

Definition get_x (self : DUTAnalysis.t) (c : cutarg) (pl : option nat) : res ndarray :=
  DUTAnalysis.get_data Cut array_of_group self "Clusters" (Some "X") c pl.

Definition get_mask (self : DUTAnalysis.t) : res ndarray :=
  DUTAnalysis.get_data Cut array_of_group self "Mask" None (ArgBool false) None.
End Getters.

(** Python's [range(n)]. *)
Definition range (n : Z) : list Z := map Z.of_nat (List.seq 0 (Z.to_nat n)).

(** The arguments [init_planes] builds a [Plane] from: its number and the
    section of the configuration it is given. *)
Record PlaneArgs : Type := {
  Number : Z;
  Section_ : string
}.

(** [init_planes], on the two plane counts it reads from the configuration. *)
Definition init_planes (n_tel n_dut : Z) : list PlaneArgs :=
  map (fun i => {| Number := i;
                   Section_ := if (i <? n_tel)%Z then "TELESCOPE" else "DUT" |})
      (range (n_tel + n_dut)).

(** *** [show_structure] *)

(** [o.items()]: a dataset has none. *)
Definition items (o : h5obj) : res (list (string * h5obj)) :=
  match o with
  | Group members => Ok members
  | Dataset _ => Raise AttributeError
  end.

(** [sub in s] on strings. *)
Definition str_in (sub s : string) : bool :=
  match index 0 sub s with
  | Some _ => true
  | None => false
  end.

(** The test of [show_structure] on a top-level key; [dut_key] is
    [f'Plane{self.Plane.Number}']. *)
Definition listed (dut_key key : string) : bool :=
  negb (str_in "Plane" key) || String.eqb key "Plane0" || String.eqb key dut_key.

(** The lines for one member of a listed group. *)
Definition member_lines (bar : string) (kg : string * h5obj) : list string :=
  (bar ++ "   ├── " ++ fst kg) ::
  match snd kg with
  | Group ms => map (fun i => "│   │   ├── " ++ i) (map fst ms)
  | Dataset _ => []
  end.

(** The loop over the top-level entries from position [i0] on; [n] is
    [len(self.F.keys())]. *)
Fixpoint show_groups (dut_key : string) (n i0 : nat) (l : list (string * h5obj))
  : list string * res unit :=
  match l with
  | [] => ([], Ok tt)
  | (key, grp) :: l' =>
      if listed dut_key key then
        match items grp with
        | Raise e => (["├── " ++ key], Raise e)
        | Ok ms =>
            let out := ("├── " ++ key)
                       :: flat_map (member_lines (if i0 <? n - 1 then "│" else " ")) ms in
            let (out', r) := show_groups dut_key n (S i0) l' in
            ((out ++ out')%list, r)
        end
      else show_groups dut_key n (S i0) l'
  end.

(** [show_structure]: the lines printed, and whether it returned. *)
Definition show_structure (dut_key : string) (self : DUTAnalysis.t)
  : list string * res unit :=
  match items (DUTAnalysis.F self) with
  | Raise e => (["."], Raise e)
  | Ok ms =>
      let (out, r) := show_groups dut_key (length ms) 0 ms in
      ("." :: out, r)
  end.

(** *** [expand_inpixel] *)

(** numpy's [a & b] on boolean arrays of one length. *)
Fixpoint mask_and (a b : list bool) : list bool :=
  match a, b with
  | x :: a', y :: b' => (x && y) :: mask_and a' b'
  | _, _ => []
  end.

Definition count_true (m : list bool) : nat := length (filter (fun b => b) m).

Section InPixel.
(** The coordinates are floats.  The comparisons with [.5], the float
    operations [v + 1] and [v - 1] and the reductions [v % 1],
    [(v % cx) / cx] and [(v % cy) / cy] are taken as they come. *)
Variable V : Type.
Variables lt_half ge_half gt_half : V -> bool.
Variables add1 sub1 : V -> V.
Variables mod1 cell_x cell_y : V -> V.

Definition expand_inpixel (x y : list V) (e : option (list V)) (cell : bool)
  : res (list V * list V * option (list V)) :=
  let x := map (if cell then cell_x else mod1) x in
  let y := map (if cell then cell_y else mod1) y in
  let xl := map lt_half x in
  let xh := map ge_half x in
  let yl := map lt_half y in
  let yh := map ge_half y in
  (* add edges of the neighbouring pixels *)
  x1 <- getitem_nd x (Mask xl) ;;
  x2 <- getitem_nd x (Mask xh) ;;
  x3 <- getitem_nd x (Mask yl) ;;
  x4 <- getitem_nd x (Mask (map gt_half y)) ;;
  let xf := (x ++ map add1 x1 ++ map sub1 x2 ++ x3 ++ x4)%list in
  y1 <- getitem_nd y (Mask xl) ;;
  y2 <- getitem_nd y (Mask xh) ;;
  y3 <- getitem_nd y (Mask yl) ;;
  y4 <- getitem_nd y (Mask yh) ;;
  let yf := (y ++ y1 ++ y2 ++ map add1 y3 ++ map sub1 y4)%list in
  ef <- match e with
        | None => Ok None
        | Some ev =>
            e1 <- getitem_nd ev (Mask xl) ;;
            e2 <- getitem_nd ev (Mask xh) ;;
            e3 <- getitem_nd ev (Mask yl) ;;
            e4 <- getitem_nd ev (Mask yh) ;;
            Ok (Some ((ev ++ e1 ++ e2 ++ e3 ++ e4)%list))
        end ;;
  (* add corners *)
  let ll := mask_and xl yl in
  let hh := mask_and xh yh in
  let lh := mask_and xl yh in
  let hl := mask_and xh yl in
  a1 <- getitem_nd x (Mask ll) ;;
  a2 <- getitem_nd x (Mask hh) ;;
  a3 <- getitem_nd x (Mask lh) ;;
  a4 <- getitem_nd x (Mask hl) ;;
  let xf := (xf ++ map add1 a1 ++ map sub1 a2 ++ map add1 a3 ++ map sub1 a4)%list in
  b1 <- getitem_nd y (Mask ll) ;;
  b2 <- getitem_nd y (Mask hh) ;;
  b3 <- getitem_nd y (Mask lh) ;;
  b4 <- getitem_nd y (Mask hl) ;;
  let yf := (yf ++ map add1 b1 ++ map sub1 b2 ++ map sub1 b3 ++ map add1 b4)%list in
  ef <- match e, ef with
        | Some ev, Some ef =>
            c1 <- getitem_nd ev (Mask ll) ;;
            c2 <- getitem_nd ev (Mask hh) ;;
            c3 <- getitem_nd ev (Mask lh) ;;
            c4 <- getitem_nd ev (Mask hl) ;;
            Ok (Some ((ef ++ c1 ++ c2 ++ c3 ++ c4)%list))
        | _, _ => Ok None
        end ;;
  Ok (xf, yf, ef).
End InPixel.

(** *** [fit_langau] *)

Section Langau.
(** The fit object [Langau(h, nconv, fit_range)] after [get_parameters] and
    the fit itself, for the histogram at hand, and the test
    [fit.get_chi2() > chi_thresh] on it. *)
Variable Fit : Type.
Variable Range : Type.
Variable Langau : Z -> option Range -> Fit.
Variable chi2_exceeds : Fit -> bool.

(** What a call leaves behind: the fit returned, [Draw.Count], and the fits
    handed to [self.Draw.add], oldest first. *)
Record langau_result : Type := {
  fit : Fit;
  Count : Z;
  added : list Fit
}.

(** [fit_langau(h, nconv, fit_range=fit_range)] with [Draw.Count] at
    [count]; [fuel] bounds the depth of the recursion. *)
Fixpoint fit_langau (fuel : nat) (nconv : Z) (fit_range : option Range) (count : Z)
  : option langau_result :=
  match fuel with
  | O => None
  | S fuel' =>
      let f := Langau nconv fit_range in
      if chi2_exceeds f && (nconv <? 80)%Z then
        let count := (count + 5)%Z in
        match fit_langau fuel' (nconv + count)%Z None count with
        | Some r => Some {| fit := fit r; Count := 0; added := (added r ++ [fit r])%list |}
        | None => None
        end
      else Some {| fit := f; Count := 0; added := [f] |}
  end.
End Langau.

(** *** Fixtures *)

(** A file with both groups that [load_file] looks for, whose ['Tracks']
    group is empty. *)
Definition shallow_file : list (string * h5obj) :=
  [ ("Tracks", Group []);
    ("Plane4", Group [ ("Clusters", Group [ ("X", Dataset [10; 12]%Z) ]) ]) ].


Definition world_of (members : list (string * h5obj)) : World :=
  {| Converter_run := Ok tt;
     h5py_File := fun _ => Ok members;
     Dummy_load_file := Ok (Group []) |}.

Definition run_members : list (string * h5obj) :=
  [ ("Tracks", Group [ ("NTracks", Dataset [2; 1]%Z);
                       ("Size", Dataset [3; 3; 4]%Z) ]);
    ("Plane4", Group [ ("Clusters", Group [ ("X", Dataset [10; 12]%Z);
                                            ("Charge", Dataset [70; 90]%Z) ]);
                       ("Mask", Dataset [0; 1]%Z) ]) ].

(** * Properties *)

(** ** The information [__init__] reads from the file *)

Lemma bind_Ok_inv {A B : Type} (m : res A) (k : A -> res B) (b : B) :
  (x <- m ;; k x) = Ok b -> exists a, m = Ok a /\ k a = Ok b.
Proof. destruct m as [a|e]; simpl; intros H; [eauto | discriminate]. Qed.

Lemma init_sizes plane f ana :
  DUTAnalysis.init plane f = Ok ana ->
  (tr <- getitem f "Tracks" ;; x <- getitem tr "NTracks" ;; size x)
    = Ok (DUTAnalysis.NEvents ana) /\
  (tr <- getitem f "Tracks" ;; x <- getitem tr "Size" ;; size x)
    = Ok (DUTAnalysis.NTracks ana) /\
  (d <- getitem f plane ;; c <- getitem d "Clusters" ;; x <- getitem c "X" ;; size x)
    = Ok (DUTAnalysis.N ana).
Proof.
  unfold DUTAnalysis.init. intros H.
  apply bind_Ok_inv in H as (data & Hd & H).
  apply bind_Ok_inv in H as (n & Hn & H).
  apply bind_Ok_inv in H as (nev & Hnev & H).
  apply bind_Ok_inv in H as (ntr & Hntr & H).
  injection H as <-. simpl. rewrite Hd. simpl. auto.
Qed.

Example run_ana_init : DUTAnalysis.init "Plane4" run_file = Ok run_ana.
Proof. reflexivity. Qed.

(** ** Selection apply: [TrackCut.__call__] *)

Section Apply.
Variable super_call : cut -> res sel.
Variable ev2trk : ndarray -> res ndarray.
Variable trk2pl : ndarray -> option nat -> res ndarray.

(** C1: when the data array has as many entries as there are events, the
    call returns the data broadcast to Track space by [ev2trk] and then
    indexed by the cut the base class resolved. *)
Theorem call_event_data_is_broadcast_then_indexed
    (Ana : DUTAnalysis.t) (c : cut) (data : ndarray) (pl : option nat) :
  length data = DUTAnalysis.NEvents Ana ->
  TrackCut.call super_call ev2trk trk2pl Ana c (Some data) pl =
    (k <- super_call c ;; t <- ev2trk data ;; fmap TrackCut.RData (getitem_nd t k)).
Proof.
  intros Hlen. unfold TrackCut.call.
  destruct (super_call c) as [k|e]; simpl; [|reflexivity].
  apply Nat.eqb_eq in Hlen. now rewrite Hlen.
Qed.

(** C2: when the data array's length is not the number of events, a
    resolved cut that is an array of the Cluster-space length [Ana.N] makes
    the call project the data with [trk2pl(data, pl)] before indexing;
    every other resolved cut indexes the data directly. *)
Theorem call_other_data_projects_only_for_cluster_cut
    (Ana : DUTAnalysis.t) (c : cut) (k : sel) (data : ndarray) (pl : option nat) :
  length data <> DUTAnalysis.NEvents Ana ->
  super_call c = Ok k ->
  ((exists m, k = Mask m /\ length m = DUTAnalysis.N Ana) ->
   TrackCut.call super_call ev2trk trk2pl Ana c (Some data) pl =
     (p <- trk2pl data pl ;; fmap TrackCut.RData (getitem_nd p k))) /\
  (~ (exists m, k = Mask m /\ length m = DUTAnalysis.N Ana) ->
   TrackCut.call super_call ev2trk trk2pl Ana c (Some data) pl = fmap TrackCut.RData (getitem_nd data k)).
Proof.
  intros Hlen Hk. unfold TrackCut.call. rewrite Hk. simpl.
  apply Nat.eqb_neq in Hlen. rewrite Hlen. split.
  - intros (m & -> & Hm). apply Nat.eqb_eq in Hm. now rewrite Hm.
  - intros Hno. destruct k as [|m]; [reflexivity|].
    destruct (length m =? DUTAnalysis.N Ana) eqn:E; [|reflexivity].
    apply Nat.eqb_eq in E. exfalso. apply Hno. now exists m.
Qed.

(** C4, as amended: with the cut [...], which the base class hands back as
    it is, the call returns a data array unchanged whenever the array's
    length is not the number of events. *)
Theorem call_ellipsis_identity_off_event_length
    (Ana : DUTAnalysis.t) (data : ndarray) (pl : option nat) :
  super_call CEllipsis = Ok Ellipsis ->
  length data <> DUTAnalysis.NEvents Ana ->
  TrackCut.call super_call ev2trk trk2pl Ana CEllipsis (Some data) pl
    = Ok (TrackCut.RData data).
Proof.
  intros Hsup Hlen. unfold TrackCut.call. rewrite Hsup. simpl.
  apply Nat.eqb_neq in Hlen. now rewrite Hlen.
Qed.
End Apply.

Lemma call_event_data_is_broadcast_then_indexed_witness :
  length [5; 7]%Z = DUTAnalysis.NEvents run_ana /\
  TrackCut.call (DUTCut.call run_tracks) (DUTCut.ev2trk run_ctx) run_trk2pl
    run_ana (CMask [true; false; true]) (Some [5; 7]%Z) None
  = Ok (TrackCut.RData [5; 7]%Z).
Proof.
  split; [reflexivity|].
  exact (call_event_data_is_broadcast_then_indexed
           (DUTCut.call run_tracks) (DUTCut.ev2trk run_ctx) run_trk2pl
           run_ana (CMask [true; false; true]) [5; 7]%Z None eq_refl).
Defined.

Lemma call_other_data_projects_only_for_cluster_cut_witness :
  length [1; 2; 3]%Z <> DUTAnalysis.NEvents run_ana /\
  DUTCut.call run_tracks (CMask [false; true]) = Ok (Mask [false; true]) /\
  TrackCut.call (DUTCut.call run_tracks) (DUTCut.ev2trk run_ctx) run_trk2pl
    run_ana (CMask [false; true]) (Some [1; 2; 3]%Z) None
  = Ok (TrackCut.RData [3]%Z).
Proof.
  assert (Hlen : length [1; 2; 3]%Z <> DUTAnalysis.NEvents run_ana)
    by (simpl; lia).
  split; [exact Hlen|]. split; [reflexivity|].
  destruct (call_other_data_projects_only_for_cluster_cut
              (DUTCut.call run_tracks) (DUTCut.ev2trk run_ctx) run_trk2pl
              run_ana (CMask [false; true]) (Mask [false; true])
              [1; 2; 3]%Z None Hlen eq_refl) as [Hproj _].
  apply Hproj. exists [false; true]. split; reflexivity.
Defined.

Lemma call_ellipsis_identity_off_event_length_witness :
  DUTCut.call run_tracks CEllipsis = Ok Ellipsis /\
  length [1; 2; 3]%Z <> DUTAnalysis.NEvents run_ana /\
  TrackCut.call (DUTCut.call run_tracks) (DUTCut.ev2trk run_ctx) run_trk2pl
    run_ana CEllipsis (Some [1; 2; 3]%Z) None
  = Ok (TrackCut.RData [1; 2; 3]%Z).
Proof.
  assert (Hlen : length [1; 2; 3]%Z <> DUTAnalysis.NEvents run_ana)
    by (simpl; lia).
  split; [reflexivity|]. split; [exact Hlen|].
  exact (call_ellipsis_identity_off_event_length
           (DUTCut.call run_tracks) (DUTCut.ev2trk run_ctx) run_trk2pl run_ana
           [1; 2; 3]%Z None eq_refl Hlen).
Defined.

(** C4, as stated, fails on an array of event length: the first event has two
    tracks, so its value comes back twice. *)
Lemma call_ellipsis_changes_event_data :
  TrackCut.call (DUTCut.call run_tracks) (DUTCut.ev2trk run_ctx) run_trk2pl
    run_ana CEllipsis (Some [5; 7]%Z) None
  = Ok (TrackCut.RData [5; 5; 7]%Z) /\
  TrackCut.call (DUTCut.call run_tracks) (DUTCut.ev2trk run_ctx) run_trk2pl
    run_ana CEllipsis (Some [5; 7]%Z) None
  <> Ok (TrackCut.RData [5; 7]%Z).
Proof. split; [reflexivity | discriminate]. Qed.

(** ** [TrackCut.make_trk] *)

Lemma resize_length (x : list bool) (n : nat) : length (resize x n) = n.
Proof.
  unfold resize. rewrite length_firstn, length_app, repeat_length. lia.
Qed.

(** C8: [make_trk(x)] is [make_ev(x, Ana.NTracks)], a boolean array of the
    Track-space length, where [Ana.NTracks] is the size of the per-track
    column [F['Tracks']['Size']] that [__init__] read. *)
Theorem make_trk_is_make_ev_at_track_length
    (make_ev : list bool -> nat -> list bool)
    (plane : string) (f : h5obj) (Ana : DUTAnalysis.t) (x : list bool) :
  (forall y n, length (make_ev y n) = n) ->
  DUTAnalysis.init plane f = Ok Ana ->
  TrackCut.make_trk make_ev Ana x = make_ev x (DUTAnalysis.NTracks Ana) /\
  length (TrackCut.make_trk make_ev Ana x) = DUTAnalysis.NTracks Ana /\
  (tr <- getitem f "Tracks" ;; c <- getitem tr "Size" ;; size c)
    = Ok (DUTAnalysis.NTracks Ana).
Proof.
  intros Hlen Hinit. unfold TrackCut.make_trk.
  split; [reflexivity|]. split; [apply Hlen|].
  now apply init_sizes in Hinit as (_ & Hsize & _).
Qed.

Lemma make_trk_is_make_ev_at_track_length_witness :
  (forall y n, length (resize y n) = n) /\
  DUTAnalysis.init "Plane4" run_file = Ok run_ana /\
  TrackCut.make_trk resize run_ana [true] = [true; false; false].
Proof.
  split; [exact resize_length|]. split; [reflexivity|].
  exact (proj1 (make_trk_is_make_ev_at_track_length
                  resize "Plane4" run_file run_ana [true]
                  resize_length eq_refl)).
Defined.

(** ** [DUTAnalysis.get_data] *)

Lemma get_data_by_cut_kind
    (Cut Cut' : cut -> ndarray -> option nat -> res ndarray)
    (array_of_group : list (string * h5obj) -> res ndarray)
    (self : DUTAnalysis.t) (grp : string) (key : option string)
    (b : bool) (c : cut) (pl : option nat) :
  DUTAnalysis.get_data Cut array_of_group self grp key (ArgBool b) pl
    = DUTAnalysis.get_data Cut' array_of_group self grp key (ArgBool b) pl /\
  DUTAnalysis.get_data Cut array_of_group self grp key (ArgCut c) pl
    = (data <- DUTAnalysis.get_data Cut array_of_group self grp key (ArgBool b) pl ;;
       Cut c data pl).
Proof.
  unfold DUTAnalysis.get_data.
  destruct (DUTAnalysis.column array_of_group self grp key); simpl; auto.
Qed.

(** C9: where the plane's data holds the column as a dataset (the member
    [grp] itself when no key is given, the member [key] of the group [grp]
    otherwise), [get_data] with a Python [bool] as cut returns that dataset
    whole, whatever the cut object is; with any other cut it returns what the
    cut object makes of that dataset. *)
Theorem get_data_bool_cut_bypasses_cut_engine
    (Cut : cut -> ndarray -> option nat -> res ndarray)
    (array_of_group : list (string * h5obj) -> res ndarray)
    (self : DUTAnalysis.t) (members : list (string * h5obj))
    (grp : string) (key : option string) (a : ndarray)
    (b : bool) (c : cut) (pl : option nat) :
  DUTAnalysis.Data self = Group members ->
  (key = None /\ assoc grp members = Some (Dataset a)) \/
  (exists k ms, key = Some k /\ assoc grp members = Some (Group ms) /\
                assoc k ms = Some (Dataset a)) ->
  DUTAnalysis.get_data Cut array_of_group self grp key (ArgBool b) pl = Ok a /\
  DUTAnalysis.get_data Cut array_of_group self grp key (ArgCut c) pl = Cut c a pl.
Proof.
  intros HD Hcol. unfold DUTAnalysis.get_data, DUTAnalysis.column.
  rewrite HD. simpl.
  destruct Hcol as [(-> & Hg) | (k & ms & -> & Hg & Hk)]; rewrite Hg; simpl.
  - auto.
  - rewrite Hk. simpl. auto.
Qed.

Lemma get_data_bool_cut_bypasses_cut_engine_witness :
  DUTAnalysis.Data run_ana
    = Group [ ("Clusters", Group [ ("X", Dataset [10; 12]%Z);
                                   ("Charge", Dataset [70; 90]%Z) ]);
              ("Mask", Dataset [0; 1]%Z) ] /\
  DUTAnalysis.get_data (fun _ _ _ => Raise IndexError) (fun _ => Raise ValueError)
    run_ana "Clusters" (Some "Charge") (ArgBool true) None = Ok [70; 90]%Z /\
  DUTAnalysis.get_data (fun _ _ _ => Raise IndexError) (fun _ => Raise ValueError)
    run_ana "Clusters" (Some "Charge") (ArgCut CNone) None = Raise IndexError.
Proof.
  split; [reflexivity|].
  apply (get_data_bool_cut_bypasses_cut_engine
           (fun _ _ _ => Raise IndexError) (fun _ => Raise ValueError) run_ana
           [ ("Clusters", Group [ ("X", Dataset [10; 12]%Z);
                                  ("Charge", Dataset [70; 90]%Z) ]);
             ("Mask", Dataset [0; 1]%Z) ]
           "Clusters" (Some "Charge") [70; 90]%Z true CNone None eq_refl).
  right. exists "Charge", [ ("X", Dataset [10; 12]%Z); ("Charge", Dataset [70; 90]%Z) ].
  split; [reflexivity|]. split; reflexivity.
Defined.

Example get_data_charge_unselected :
  DUTAnalysis.get_data (fun _ _ _ => Raise IndexError) (fun _ => Raise ValueError)
    run_ana "Clusters" (Some "Charge") (ArgBool false) None
  = Ok [70; 90]%Z.
Proof. reflexivity. Qed.

(** ** [DUTAnalysis.load_file] *)





(** With [test] set the file is not tried and nothing is printed; a
    converter that raises is not caught. *)
Lemma load_file_test_skips_the_file (w : World) (file_name plane : string) :
  DUTAnalysis.load_file w file_name plane true = ([], Dummy_load_file w).
Proof. reflexivity. Qed.

Lemma load_file_converter_raises (w : World) (file_name plane : string) (e : exn) :
  Converter_run w = Raise e ->
  DUTAnalysis.load_file w file_name plane false = ([], Raise e).
Proof. intros H. unfold DUTAnalysis.load_file. simpl. now rewrite H. Qed.

Lemma load_file_complete_file (w : World) (file_name plane : string)
    (members : list (string * h5obj)) (t p : h5obj) :
  Converter_run w = Ok tt ->
  h5py_File w file_name = Ok members ->
  assoc "Tracks" members = Some t ->
  assoc plane members = Some p ->
  DUTAnalysis.load_file w file_name plane false = ([], Ok (Group members)).
Proof.
  intros Hc Hf Ht Hp. unfold DUTAnalysis.load_file, DUTAnalysis.try_open. simpl.
  now rewrite Hc, Hf; simpl; rewrite Ht; simpl; rewrite Hp.
Qed.

(** ** The registry *)

Module RegistryFacts.
Import DUTCut.

(** *** Names and [store] *)

Lemma has_app n cs cs' : has n (cs ++ cs') = has n cs || has n cs'.
Proof. unfold has. apply existsb_app. Qed.

Lemma name_replace c x : name (replace c x) = name x.
Proof.
  unfold replace. destruct (String.eqb (name x) (name c)) eqn:E; [|reflexivity].
  apply String.eqb_eq in E. congruence.
Qed.

Lemma names_replace c cs : map name (map (replace c) cs) = map name cs.
Proof.
  rewrite map_map. apply map_ext. intros x. apply name_replace.
Qed.

Lemma has_replace n c cs : has n (map (replace c) cs) = has n cs.
Proof.
  induction cs as [|x cs IH]; [reflexivity|].
  simpl. now rewrite name_replace, IH.
Qed.

Lemma has_store n c cs : has n (store c cs) = has n cs || String.eqb (name c) n.
Proof.
  unfold store. destruct (has (name c) cs) eqn:Hc.
  - rewrite has_replace.
    destruct (String.eqb (name c) n) eqn:E; [|now rewrite orb_false_r].
    apply String.eqb_eq in E. subst n. now rewrite Hc.
  - rewrite has_app. simpl. now rewrite orb_false_r.
Qed.

Lemma has_perm n cs cs' : Permutation cs cs' -> has n cs = has n cs'.
Proof.
  induction 1 as [|x l l' _ IH|x y l|l l' l'' _ IH1 _ IH2]; simpl.
  - reflexivity.
  - now rewrite IH.
  - now rewrite !orb_assoc, (orb_comm (String.eqb (name y) n)).
  - congruence.
Qed.

Lemma has_In n cs : has n cs = true <-> exists c, In c cs /\ name c = n.
Proof.
  unfold has. rewrite existsb_exists. split; intros (c & Hin & Hn); exists c.
  - split; [assumption | now apply String.eqb_eq].
  - split; [assumption | now apply String.eqb_eq].
Qed.

Lemma store_perm c cs cs' :
  Permutation cs cs' -> Permutation (store c cs) (store c cs').
Proof.
  intros HP. unfold store. rewrite <- (has_perm (name c) cs cs' HP).
  destruct (has (name c) cs).
  - now apply Permutation_map.
  - now apply Permutation_app_tail.
Qed.

Lemma replace_other c x : name x <> name c -> replace c x = x.
Proof.
  intros Hne. unfold replace. apply String.eqb_neq in Hne. now rewrite Hne.
Qed.

Lemma replace_comm c1 c2 x :
  name c1 <> name c2 ->
  replace c1 (replace c2 x) = replace c2 (replace c1 x).
Proof.
  intros Hne. unfold replace at 2 4.
  destruct (String.eqb (name x) (name c2)) eqn:E2;
    destruct (String.eqb (name x) (name c1)) eqn:E1.
  - apply String.eqb_eq in E1, E2. congruence.
  - rewrite (replace_other c1 c2) by congruence.
    unfold replace. now rewrite E2.
  - rewrite (replace_other c2 c1) by congruence.
    unfold replace. now rewrite E1.
  - unfold replace. now rewrite E1, E2.
Qed.

Lemma store_comm c1 c2 cs :
  name c1 <> name c2 ->
  Permutation (store c1 (store c2 cs)) (store c2 (store c1 cs)).
Proof.
  intros Hne.
  assert (H12 : String.eqb (name c2) (name c1) = false)
    by (apply String.eqb_neq; congruence).
  assert (H21 : String.eqb (name c1) (name c2) = false)
    by (now apply String.eqb_neq).
  unfold store at 1 3. rewrite !has_store, H12, H21, !orb_false_r.
  unfold store.
  destruct (has (name c1) cs) eqn:E1; destruct (has (name c2) cs) eqn:E2.
  - rewrite !map_map. erewrite map_ext; [reflexivity|].
    intros x. now apply replace_comm.
  - rewrite map_app. simpl. rewrite (replace_other c1 c2) by congruence.
    reflexivity.
  - rewrite map_app. simpl. rewrite (replace_other c2 c1) by congruence.
    reflexivity.
  - rewrite <- !app_assoc. apply Permutation_app_head. simpl. apply perm_swap.
Qed.

(** *** [create] and [register] *)

Lemma create_Ok c n m p d k :
  create c n m p d = Ok k ->
  name k = n /\ mask k = snd m /\ space k = fst m /\
  length (mask k) = space_size c (space k).
Proof.
  unfold create. destruct (length (snd m) =? space_size c (fst m)) eqn:E;
    [|discriminate].
  intros [= <-]. simpl. apply Nat.eqb_eq in E. auto.
Qed.

Lemma create_Raise c n m p d e :
  create c n m p d = Raise e ->
  e = ShapeError /\ length (snd m) <> space_size c (fst m).
Proof.
  unfold create. destruct (length (snd m) =? space_size c (fst m)) eqn:E;
    [discriminate|].
  intros [= <-]. apply Nat.eqb_neq in E. auto.
Qed.

Lemma register_req_spec q r : registered q r (fst (register_req q r)) (snd (register_req q r)).
Proof.
  unfold register_req, register.
  destruct (create (ctx r) (rq_name q) (rq_mask q) (rq_priority q) (rq_description q))
    as [k|e] eqn:Hc; simpl.
  - destruct (has (rq_name q) (cuts r) && negb (rq_redo q)) eqn:Hk; simpl.
    + now apply (reg_kept q r k).
    + now apply reg_stored.
  - apply create_Raise in Hc as [-> Hlen]. now apply reg_failed.
Qed.

Lemma registered_fun q r r1 o :
  registered q r r1 o -> register_req q r = (r1, o).
Proof.
  unfold register_req, register.
  intros [k Hk Hc | k Hk Hc | Hlen].
  - now rewrite Hc, Hk.
  - now rewrite Hc, Hk.
  - unfold create. apply Nat.eqb_neq in Hlen. now rewrite Hlen.
Qed.

Lemma register_req_inv q r r1 o :
  register_req q r = (r1, o) -> registered q r r1 o.
Proof.
  intros H. pose proof (register_req_spec q r) as Hs. now rewrite H in Hs.
Qed.

Lemma registered_ctx q r r1 o :
  registered q r r1 o -> ctx r1 = ctx r /\ native r1 = native r.
Proof. intros [k Hk Hc | k Hk Hc | Hlen]; auto. Qed.

Lemma registered_has q r r1 o n :
  registered q r r1 o ->
  has n (cuts r1) = has n (cuts r) || (match o with Ok _ => String.eqb (rq_name q) n | Raise _ => false end).
Proof.
  intros [k Hk Hc | k Hk Hc | Hlen]; simpl.
  - destruct (String.eqb (rq_name q) n) eqn:E; [|now rewrite orb_false_r].
    apply String.eqb_eq in E. subst n.
    apply andb_true_iff in Hk as [-> _]. reflexivity.
  - apply create_Ok in Hc as (Hn & _). now rewrite has_store, Hn.
  - now rewrite orb_false_r.
Qed.

(** *** The invariants hold of every registry built by [register] *)

Lemma shaped_registered q r r1 o : registered q r r1 o -> shaped r -> shaped r1.
Proof.
  intros [k Hk Hc | k Hk Hc | Hlen] Hs; try assumption.
  apply create_Ok in Hc as (_ & _ & _ & Hlen).
  unfold shaped in *. simpl. unfold store.
  destruct (has (name k) (cuts r)).
  - apply Forall_map. eapply Forall_impl; [|exact Hs].
    intros x Hx. unfold replace. now destruct (String.eqb (name x) (name k)).
  - apply Forall_app. split; [assumption|]. now constructor.
Qed.

Lemma has_false_not_In n cs : has n cs = false -> ~ In n (map name cs).
Proof.
  intros Hh Hin. apply in_map_iff in Hin as (c & Hn & Hin).
  assert (has n cs = true) by (apply has_In; eauto). congruence.
Qed.

Lemma unique_names_registered q r r1 o :
  registered q r r1 o -> unique_names r -> unique_names r1.
Proof.
  intros [k Hk Hc | k Hk Hc | Hlen] Hu; try assumption.
  unfold unique_names in *. simpl. unfold store.
  destruct (has (name k) (cuts r)) eqn:Hh.
  - now rewrite names_replace.
  - rewrite map_app. simpl.
    apply (Permutation_NoDup (l := name k :: map name (cuts r))).
    + apply Permutation_cons_append.
    + constructor; [now apply has_false_not_In | assumption].
Qed.

Lemma empty_registry_invariants (c : Context) (n : IndexSpace) :
  unique_names {| ctx := c; native := n; cuts := [] |} /\
  shaped {| ctx := c; native := n; cuts := [] |}.
Proof. split; constructor. Qed.

Lemma unique_names_register_all l :
  forall r, unique_names r -> unique_names (fst (register_all l r)).
Proof.
  induction l as [|q l IH]; intros r Hu; [assumption|].
  simpl. unfold seq.
  destruct (register_req q r) as [r1 o] eqn:Hq.
  apply register_req_inv in Hq.
  pose proof (unique_names_registered _ _ _ _ Hq Hu) as Hu1.
  destruct o as [[]|e]; [now apply IH | assumption].
Qed.

Lemma shaped_register_all l : forall r, shaped r -> shaped (fst (register_all l r)).
Proof.
  induction l as [|q l IH]; intros r Hs; [assumption|].
  simpl. unfold seq.
  destruct (register_req q r) as [r1 o] eqn:Hq.
  apply register_req_inv in Hq.
  pose proof (shaped_registered _ _ _ _ Hq Hs) as Hs1.
  destruct o as [[]|e]; [now apply IH | assumption].
Qed.

(** *** [combined] does not depend on the order of the entries *)

Lemma map2_andb_length a : forall b,
  length a = length b -> length (map2 andb a b) = length a.
Proof.
  induction a as [|x a IH]; intros [|y b] H; simpl in *; try discriminate;
    [reflexivity|]. f_equal. apply IH. now injection H.
Qed.

Lemma map2_andb_swap a : forall m1 m2,
  map2 andb (map2 andb a m1) m2 = map2 andb (map2 andb a m2) m1.
Proof.
  induction a as [|x a IH]; intros [|y1 m1] [|y2 m2]; simpl; try reflexivity.
  f_equal; [|apply IH].
  now rewrite <- !andb_assoc, (andb_comm y1 y2).
Qed.

Lemma broadcast_length {A : Type} (x : list A) : forall evs,
  length x = length evs -> length (broadcast x evs) = length (concat evs).
Proof.
  induction x as [|v x IH]; intros [|e evs] H; simpl in *; try discriminate;
    [reflexivity|].
  rewrite !length_app, repeat_length. f_equal. apply IH. now injection H.
Qed.

Lemma to_native_total r c :
  length (mask c) = space_size (ctx r) (space c) ->
  exists m, to_native r c = Ok m.
Proof.
  unfold to_native, coarser_conv. intros Hlen.
  destruct (IndexSpace_eqb (space c) (native r)); [eauto|].
  destruct (space c) eqn:Es; destruct (native r) eqn:En; simpl in *; eauto.
  - unfold ev2trk. apply Nat.eqb_eq in Hlen. rewrite Hlen. eauto.
  - unfold ev2trk. pose proof Hlen as Hlen'.
    apply Nat.eqb_eq in Hlen'. rewrite Hlen'. simpl.
    unfold trk2pl, tracks. rewrite (broadcast_length _ _ Hlen), Nat.eqb_refl. eauto.
  - unfold trk2pl. apply Nat.eqb_eq in Hlen. rewrite Hlen. eauto.
Qed.

Lemma and_step_comm r acc c1 c2 :
  length (mask c1) = space_size (ctx r) (space c1) ->
  length (mask c2) = space_size (ctx r) (space c2) ->
  and_step r (and_step r acc c1) c2 = and_step r (and_step r acc c2) c1.
Proof.
  intros H1 H2.
  destruct (to_native_total r c1 H1) as [m1 E1].
  destruct (to_native_total r c2 H2) as [m2 E2].
  unfold and_step. rewrite E1, E2.
  destruct acc as [a|e]; simpl; [|reflexivity].
  unfold and_masks.
  destruct (length a =? length m1) eqn:L1; destruct (length a =? length m2) eqn:L2;
    simpl; rewrite ?E1, ?E2; simpl.
  - apply Nat.eqb_eq in L1, L2.
    rewrite (map2_andb_length a m1 L1), (map2_andb_length a m2 L2).
    apply Nat.eqb_eq in L1, L2. rewrite L1, L2. f_equal. apply map2_andb_swap.
  - apply Nat.eqb_eq in L1. rewrite (map2_andb_length a m1 L1). now rewrite L2.
  - apply Nat.eqb_eq in L2. rewrite (map2_andb_length a m2 L2). now rewrite L1.
  - reflexivity.
Qed.

Lemma fold_and_step_perm r cs cs' :
  Permutation cs cs' ->
  Forall (fun c => length (mask c) = space_size (ctx r) (space c)) cs ->
  forall acc, fold_left (and_step r) cs acc = fold_left (and_step r) cs' acc.
Proof.
  induction 1 as [|x l l' HP IH|x y l|l l' l'' HP1 IH1 HP2 IH2]; intros HF acc.
  - reflexivity.
  - simpl. apply IH. now inversion HF.
  - simpl. inversion HF as [|? ? Hy HF']. inversion HF' as [|? ? Hx _].
    now rewrite (and_step_comm r acc y x Hy Hx).
  - rewrite IH1 by assumption. apply IH2.
    eapply Permutation_Forall; eassumption.
Qed.

Lemma and_step_ext r r' acc c :
  ctx r = ctx r' -> native r = native r' -> and_step r acc c = and_step r' acc c.
Proof. intros Hc Hn. unfold and_step, to_native. now rewrite Hc, Hn. Qed.

Lemma fold_and_step_ext r r' cs :
  ctx r = ctx r' -> native r = native r' ->
  forall acc, fold_left (and_step r) cs acc = fold_left (and_step r') cs acc.
Proof.
  intros Hc Hn. induction cs as [|c cs IH]; intros acc; [reflexivity|].
  simpl. now rewrite IH, (and_step_ext r r' acc c Hc Hn).
Qed.

Lemma combined_same_entries r r' :
  same_entries r r' -> shaped r -> combined r = combined r'.
Proof.
  intros (Hc & Hn & HP) Hs. unfold combined.
  rewrite (fold_and_step_perm r _ _ HP Hs).
  rewrite (fold_and_step_ext r r' _ Hc Hn). now rewrite Hc, Hn.
Qed.

(** *** Registrations under different names commute *)

Lemma same_entries_refl r : same_entries r r.
Proof. unfold same_entries. auto. Qed.

Lemma same_entries_trans r1 r2 r3 :
  same_entries r1 r2 -> same_entries r2 r3 -> same_entries r1 r3.
Proof.
  intros (Hc & Hn & HP) (Hc' & Hn' & HP'). unfold same_entries.
  repeat split; try congruence. now transitivity (cuts r2).
Qed.

Lemma registered_same q r r' r1 o :
  same_entries r r' -> registered q r r1 o ->
  exists r1', registered q r' r1' o /\ same_entries r1 r1'.
Proof.
  intros (Hc & Hn & HP) Hreg.
  pose proof (has_perm (rq_name q) _ _ HP) as Hh.
  destruct Hreg as [k Hk Hcr | k Hk Hcr | Hlen].
  - rewrite Hh in Hk. rewrite Hc in Hcr. exists r'.
    split; [now apply (reg_kept q r' k) | unfold same_entries; auto].
  - rewrite Hh in Hk. rewrite Hc in Hcr.
    eexists. split; [now apply (reg_stored q r' k)|].
    unfold same_entries. simpl. repeat split; try assumption.
    now apply store_perm.
  - rewrite Hc in Hlen. exists r'.
    split; [now constructor | unfold same_entries; auto].
Qed.

Lemma registered_Ok_inv q r r1 :
  registered q r r1 (Ok tt) ->
  exists k,
    create (ctx r) (rq_name q) (rq_mask q) (rq_priority q) (rq_description q) = Ok k /\
    ((has (rq_name q) (cuts r) && negb (rq_redo q) = true /\ r1 = r) \/
     (has (rq_name q) (cuts r) && negb (rq_redo q) = false /\
      r1 = with_cuts r (store k (cuts r)))).
Proof. inversion 1; eauto 6. Qed.

Lemma registered_swap q1 q2 r ra rb :
  rq_name q1 <> rq_name q2 ->
  registered q1 r ra (Ok tt) -> registered q2 ra rb (Ok tt) ->
  exists ra' rb',
    registered q2 r ra' (Ok tt) /\ registered q1 ra' rb' (Ok tt) /\
    same_entries rb rb'.
Proof.
  intros Hne H1 H2.
  assert (E12 : String.eqb (rq_name q1) (rq_name q2) = false)
    by (now apply String.eqb_neq).
  assert (E21 : String.eqb (rq_name q2) (rq_name q1) = false)
    by (apply String.eqb_neq; congruence).
  pose proof (registered_has _ _ _ _ (rq_name q2) H1) as Hh2.
  simpl in Hh2. rewrite E12, orb_false_r in Hh2.
  pose proof (registered_ctx _ _ _ _ H1) as [Hctx _].
  pose proof H1 as H1'. pose proof H2 as H2'.
  apply registered_Ok_inv in H1' as (k1 & Hc1 & [(Hk1 & Era) | (Hk1 & Era)]);
    apply registered_Ok_inv in H2' as (k2 & Hc2 & [(Hk2 & Erb) | (Hk2 & Erb)]);
    rewrite Hctx in Hc2; rewrite Hh2 in Hk2; subst ra; subst rb.
  - exists r, r. repeat split; try assumption; auto using Permutation_refl.
  - exists (with_cuts r (store k2 (cuts r))), (with_cuts r (store k2 (cuts r))).
    split; [assumption|]. split; [|apply same_entries_refl].
    apply (reg_kept q1 _ k1); [|exact Hc1]. simpl. rewrite has_store.
    apply create_Ok in Hc2 as (Hn2 & _). now rewrite Hn2, E21, orb_false_r.
  - exists r, (with_cuts r (store k1 (cuts r))).
    split; [now apply (reg_kept q2 r k2)|].
    split; [assumption | apply same_entries_refl].
  - exists (with_cuts r (store k2 (cuts r))),
           (with_cuts (with_cuts r (store k2 (cuts r)))
                      (store k1 (store k2 (cuts r)))).
    split; [now apply reg_stored|]. split.
    + apply (reg_stored q1 (with_cuts r (store k2 (cuts r))) k1); simpl;
        [|assumption].
      rewrite has_store.
      pose proof Hc2 as Hc2'. apply create_Ok in Hc2' as (Hn2 & _).
      now rewrite Hn2, E21, orb_false_r.
    + unfold same_entries. simpl. repeat split.
      apply create_Ok in Hc1 as (Hn1 & _). apply create_Ok in Hc2 as (Hn2 & _).
      apply store_comm. congruence.
Qed.

Lemma register_all_cons q l r :
  register_all (q :: l) r =
    match register_req q r with
    | (r1, Ok _) => register_all l r1
    | (r1, Raise e) => (r1, Raise e)
    end.
Proof. reflexivity. Qed.

Lemma register_all_cons_Ok q l r r1 :
  register_all (q :: l) r = (r1, Ok tt) ->
  exists ra, registered q r ra (Ok tt) /\ register_all l ra = (r1, Ok tt).
Proof.
  rewrite register_all_cons.
  destruct (register_req q r) as [ra [[]|e]] eqn:Hq; [|discriminate].
  intros H. exists ra. split; [now apply register_req_inv | assumption].
Qed.

Lemma register_all_same l : forall r r' r1 o,
  same_entries r r' -> register_all l r = (r1, o) ->
  exists r1', register_all l r' = (r1', o) /\ same_entries r1 r1'.
Proof.
  induction l as [|q l IH]; intros r r' r1 o Hsame Hrun.
  - simpl in Hrun. injection Hrun as <- <-. exists r'. now split.
  - rewrite register_all_cons in *.
    destruct (register_req q r) as [ra oa] eqn:Hq.
    apply register_req_inv in Hq.
    destruct (registered_same q r r' ra oa Hsame Hq) as (ra' & Hq' & Hsame').
    rewrite (registered_fun _ _ _ _ Hq').
    destruct oa as [u|e].
    + now apply (IH ra ra').
    + injection Hrun as <- <-. exists ra'. now split.
Qed.

Lemma register_all_perm l l' :
  Permutation l l' -> NoDup (map rq_name l) ->
  forall r r1, register_all l r = (r1, Ok tt) ->
  exists r2, register_all l' r = (r2, Ok tt) /\ same_entries r1 r2.
Proof.
  induction 1 as [|x l l' HP IH|x y l|l l' l'' HP1 IH1 HP2 IH2];
    intros Hnd r r1 Hrun.
  - exists r1. split; [assumption | apply same_entries_refl].
  - apply register_all_cons_Ok in Hrun as (ra & Hx & Hrest).
    simpl in Hnd. inversion Hnd as [|? ? _ Hnd']. subst.
    destruct (IH Hnd' ra r1 Hrest) as (r2 & Hrun' & Hsame).
    exists r2. split; [|assumption].
    rewrite register_all_cons, (registered_fun _ _ _ _ Hx). exact Hrun'.
  - apply register_all_cons_Ok in Hrun as (ra & Hy & Hrun).
    apply register_all_cons_Ok in Hrun as (rb & Hx & Hrest).
    assert (Hne : rq_name y <> rq_name x).
    { simpl in Hnd. inversion Hnd as [|? ? Hnotin _]. subst.
      intros E. apply Hnotin. left. now symmetry. }
    destruct (registered_swap y x r ra rb Hne Hy Hx)
      as (ra' & rb' & Hx' & Hy' & Hsame).
    destruct (register_all_same l rb rb' r1 (Ok tt) Hsame Hrest)
      as (r2 & Hrest' & Hsame').
    exists r2. split; [|assumption].
    rewrite register_all_cons, (registered_fun _ _ _ _ Hx').
    rewrite register_all_cons, (registered_fun _ _ _ _ Hy'). exact Hrest'.
  - destruct (IH1 Hnd r r1 Hrun) as (rm & Hrun' & Hsame).
    assert (Hnd' : NoDup (map rq_name l')).
    { eapply Permutation_NoDup; [|exact Hnd]. now apply Permutation_map. }
    destruct (IH2 Hnd' r rm Hrun') as (r2 & Hrun'' & Hsame').
    exists r2. split; [assumption|].
    now apply (same_entries_trans r1 rm r2).
Qed.

(** C3: cuts with different names, registered one after the other without
    an error, give the same [combined()] mask in whatever order they are
    registered. *)
Theorem combined_independent_of_registration_order
    (l l' : list request) (r r1 : Registry) :
  Permutation l l' ->
  NoDup (map rq_name l) ->
  shaped r ->
  register_all l r = (r1, Ok tt) ->
  exists r2, register_all l' r = (r2, Ok tt) /\ combined r2 = combined r1.
Proof.
  intros HP Hnd Hs Hrun.
  destruct (register_all_perm l l' HP Hnd r r1 Hrun) as (r2 & Hrun' & Hsame).
  exists r2. split; [assumption|]. symmetry.
  apply combined_same_entries; [assumption|].
  pose proof (shaped_register_all l r Hs) as Hs1. now rewrite Hrun in Hs1.
Qed.

(** A run that ends in an exception in one order does so in every order. *)
Lemma register_all_failure_in_every_order (l l' : list request) (r r1 : Registry) (e : exn) :
  Permutation l l' ->
  NoDup (map rq_name l) ->
  register_all l r = (r1, Raise e) ->
  exists r2 e', register_all l' r = (r2, Raise e').
Proof.
  intros HP Hnd Hrun.
  destruct (register_all l' r) as [r2 [[]|e']] eqn:Hrun'; [|eauto].
  assert (Hnd' : NoDup (map rq_name l')).
  { eapply Permutation_NoDup; [|exact Hnd]. now apply Permutation_map. }
  destruct (register_all_perm l' l (Permutation_sym HP) Hnd' r r2 Hrun')
    as (r3 & Hrun3 & _).
  congruence.
Qed.

Lemma combined_independent_of_registration_order_witness :
  Permutation [rq_tp; rq_fid] [rq_fid; rq_tp] /\
  NoDup (map rq_name [rq_tp; rq_fid]) /\
  shaped run_tracks /\
  register_all [rq_tp; rq_fid] run_tracks = (run_tracks_tp_fid, Ok tt) /\
  exists r2, register_all [rq_fid; rq_tp] run_tracks = (r2, Ok tt) /\
             combined r2 = combined run_tracks_tp_fid.
Proof.
  assert (HP : Permutation [rq_tp; rq_fid] [rq_fid; rq_tp]) by apply perm_swap.
  assert (Hnd : NoDup (map rq_name [rq_tp; rq_fid])).
  { simpl. constructor; [|constructor; [|constructor]]; simpl.
    - intros [H | []]. discriminate H.
    - intros []. }
  assert (Hs : shaped run_tracks) by constructor.
  split; [exact HP|]. split; [exact Hnd|]. split; [exact Hs|].
  split; [reflexivity|].
  exact (combined_independent_of_registration_order
           [rq_tp; rq_fid] [rq_fid; rq_tp] run_tracks run_tracks_tp_fid
           HP Hnd Hs eq_refl).
Defined.

Example combined_tp_fid : combined run_tracks_tp_fid = Ok [true; false; false].
Proof. reflexivity. Qed.

Example registered_in_other_order :
  cuts (fst (register_all [rq_fid; rq_tp] run_tracks)) = [cut_fid; cut_tp] /\
  combined (fst (register_all [rq_fid; rq_tp] run_tracks)) = Ok [true; false; false].
Proof. split; reflexivity. Qed.

(** *** Re-registration and priority *)

Lemma unique_In cs : NoDup (map name cs) ->
  forall x y, In x cs -> In y cs -> name x = name y -> x = y.
Proof.
  induction cs as [|c cs IH]; intros Hnd x y Hx Hy Hn; [destruct Hx|].
  simpl in Hnd. inversion Hnd as [|? ? Hnotin Hnd']. subst.
  destruct Hx as [<- | Hx]; destruct Hy as [<- | Hy].
  - reflexivity.
  - exfalso. apply Hnotin. rewrite Hn. now apply in_map.
  - exfalso. apply Hnotin. rewrite <- Hn. now apply in_map.
  - now apply IH.
Qed.

Lemma fold_left_map_ext_in {A B : Type} (f : A -> B -> A) (g : B -> B) (l : list B) :
  (forall x, In x l -> forall acc, f acc (g x) = f acc x) ->
  forall acc, fold_left f (map g l) acc = fold_left f l acc.
Proof.
  induction l as [|x l IH]; intros H acc; [reflexivity|].
  simpl. rewrite H by now left. apply IH. intros y Hy. apply H. now right.
Qed.

(** C5: registering again, under its name, a cut that is in the registry,
    with the mask and space it has and any priority and description, leaves
    [combined()] as it was, with or without [redo]. *)
Theorem reregister_with_other_priority_keeps_combined
    (r : Registry) (c : Cut) (p : Z) (d : string) (redo : bool) :
  unique_names r ->
  In c (cuts r) ->
  combined (fst (register (name c) (space c, mask c) p d redo r)) = combined r.
Proof.
  intros Hu Hin.
  pose (q := {| rq_name := name c; rq_mask := (space c, mask c);
                rq_priority := p; rq_description := d; rq_redo := redo |}).
  change (register (name c) (space c, mask c) p d redo r) with (register_req q r).
  pose proof (register_req_spec q r) as Hreg.
  destruct Hreg as [k Hk Hc | k Hk Hc | Hlen]; try reflexivity.
  apply create_Ok in Hc as (Hn & Hm & Hsp & _). simpl in Hn, Hm, Hsp.
  assert (Hhas : has (name k) (cuts r) = true).
  { apply has_In. exists c. split; [assumption | congruence]. }
  unfold combined. simpl. unfold store. rewrite Hhas.
  rewrite (fold_and_step_ext (with_cuts r (map (replace k) (cuts r))) r)
    by reflexivity.
  apply fold_left_map_ext_in. intros x Hx acc.
  unfold replace. destruct (String.eqb (name x) (name k)) eqn:E; [|reflexivity].
  apply String.eqb_eq in E.
  assert (x = c) as -> by (apply (unique_In (cuts r) Hu); congruence).
  unfold and_step, to_native. now rewrite Hm, Hsp.
Qed.

Lemma reregister_with_other_priority_keeps_combined_witness :
  unique_names run_tracks_tp_fid /\
  In cut_fid (cuts run_tracks_tp_fid) /\
  combined (fst (register "fid" (Track, [true; true; false]) 10 "fid cut" true
                   run_tracks_tp_fid))
  = combined run_tracks_tp_fid.
Proof.
  assert (Hu : unique_names run_tracks_tp_fid).
  { unfold unique_names. simpl. constructor; [|constructor; [|constructor]]; simpl.
    - intros [H | []]. discriminate H.
    - intros []. }
  assert (Hin : In cut_fid (cuts run_tracks_tp_fid)) by (right; left; reflexivity).
  split; [exact Hu|]. split; [exact Hin|].
  exact (reregister_with_other_priority_keeps_combined
           run_tracks_tp_fid cut_fid 10 "fid cut" true Hu Hin).
Defined.

Example reregistered_priority_is_stored :
  map priority (cuts (fst (register "fid" (Track, [true; true; false]) 10 "fid cut" true
                             run_tracks_tp_fid)))
  = [10%Z; 10%Z].
Proof. reflexivity. Qed.

(** *** [make] *)

Lemma seq_done (m : cmd unit) (r : Registry) :
  seq m (fun r' => (r', Ok tt)) r = m r.
Proof. unfold seq. now destruct (m r) as [r' [[]|e]]. Qed.

Lemma make_as_requests g_tp g_res g_fid g_tstart g_chi2 redo r :
  make_on_registry g_tp g_res g_fid g_tstart g_chi2 redo r
  = register_all (make_requests g_tp g_res g_fid g_tstart g_chi2 redo) r.
Proof.
  unfold make_on_registry, TrackCut.make, make_requests. simpl.
  unfold seq, register_req. simpl.
  repeat match goal with
         | |- context [register ?n ?m ?p ?d false ?x] =>
             destruct (register n m p d false x) as [? [[]|?]]; try reflexivity
         end.
Qed.

Lemma register_all_has n l : forall r,
  has n (cuts r) = true -> has n (cuts (fst (register_all l r))) = true.
Proof.
  induction l as [|q l IH]; intros r Hh; [assumption|].
  rewrite register_all_cons.
  destruct (register_req q r) as [ra oa] eqn:Hq.
  apply register_req_inv in Hq.
  pose proof (registered_has _ _ _ _ n Hq) as Hha. rewrite Hh in Hha.
  destruct oa as [u|e]; [now apply IH | exact Hha].
Qed.

Lemma registered_Raise_inv q r r1 e : registered q r r1 (Raise e) -> r1 = r.
Proof. now inversion 1. Qed.

Lemma register_all_ctx l : forall r, ctx (fst (register_all l r)) = ctx r.
Proof.
  induction l as [|q l IH]; intros r; [reflexivity|].
  rewrite register_all_cons.
  destruct (register_req q r) as [ra oa] eqn:Hq.
  apply register_req_inv in Hq. apply registered_ctx in Hq as [Hc _].
  destruct oa as [u|e]; [now rewrite IH | exact Hc].
Qed.

Lemma register_all_idempotent l :
  Forall (fun q => rq_redo q = false) l ->
  forall r r1 o, register_all l r = (r1, o) -> register_all l r1 = (r1, o).
Proof.
  induction 1 as [|q l Hq HF IH]; intros r r1 o Hrun.
  - simpl in *. now injection Hrun as <- <-.
  - pose proof Hrun as Hrun0. rewrite register_all_cons in Hrun.
    destruct (register_req q r) as [ra oa] eqn:Hreg.
    apply register_req_inv in Hreg.
    destruct oa as [[]|e].
    + assert (Hha : has (rq_name q) (cuts ra) = true).
      { rewrite (registered_has _ _ _ _ (rq_name q) Hreg).
        now rewrite String.eqb_refl, orb_true_r. }
      assert (Hh1 : has (rq_name q) (cuts r1) = true).
      { pose proof (register_all_has (rq_name q) l ra Hha) as Hm.
        now rewrite Hrun in Hm. }
      assert (Hctx : ctx r1 = ctx r).
      { pose proof (register_all_ctx l ra) as Hm. rewrite Hrun in Hm.
        apply registered_ctx in Hreg as [Hc _]. simpl in Hm. congruence. }
      pose proof (registered_Ok_inv _ _ _ Hreg) as (k & Hck & _).
      rewrite register_all_cons.
      rewrite (registered_fun q r1 r1 (Ok tt)).
      * now apply (IH ra).
      * apply (reg_kept q r1 k); [now rewrite Hh1, Hq | now rewrite Hctx].
    + injection Hrun as <- <-.
      apply registered_Raise_inv in Hreg. subst ra. exact Hrun0.
Qed.

(** C6: a second [make(redo=False)] leaves the registry exactly as the
    first one left it (names, masks, priorities, descriptions and their
    order), and ends the way the first one ended. *)
Theorem make_without_redo_is_idempotent
    (g_tp g_res g_fid g_tstart g_chi2 : bool -> tagged) (r : Registry) :
  make_on_registry g_tp g_res g_fid g_tstart g_chi2 false
    (fst (make_on_registry g_tp g_res g_fid g_tstart g_chi2 false r))
  = make_on_registry g_tp g_res g_fid g_tstart g_chi2 false r.
Proof.
  rewrite !make_as_requests.
  destruct (register_all (make_requests g_tp g_res g_fid g_tstart g_chi2 false) r)
    as [r1 o] eqn:Hrun.
  cbn [fst].
  apply (fun HF => register_all_idempotent
                     (make_requests g_tp g_res g_fid g_tstart g_chi2 false)
                     HF r r1 o); [|assumption].
  unfold make_requests. repeat constructor.
Qed.

Example make_on_run_tracks :
  let g (m : list bool) (_ : bool) := (Track, m) in
  map name (cuts (fst (make_on_registry
                         (g [true; false; true]) (g [true; true; true])
                         (g [true; true; false]) (g [false; true; true])
                         (g [true; true; true]) false run_tracks)))
    = ["tp"; "res"; "fid"; "tstart"; "chi2"] /\
  combined (fst (make_on_registry
                   (g [true; false; true]) (g [true; true; true])
                   (g [true; true; false]) (g [false; true; true])
                   (g [true; true; true]) false run_tracks))
    = Ok [false; false; false].
Proof. split; reflexivity. Qed.

(** *** Shape errors *)

(** C7: a mask whose length is not the size of its declared space makes
    [register] fail with [ShapeError] and leave the registry as it was, in
    every registry state, under a new name and under a registered one, with
    and without [redo]. *)
Theorem register_mismatch_raises_ShapeError
    (n : string) (m : tagged) (p : Z) (d : string) (redo : bool) (r : Registry) :
  length (snd m) <> space_size (ctx r) (fst m) ->
  register n m p d redo r = (r, Raise ShapeError).
Proof.
  intros Hlen. unfold register, create.
  apply Nat.eqb_neq in Hlen. now rewrite Hlen.
Qed.

Lemma register_mismatch_raises_ShapeError_witness :
  length (snd (Track, [true])) <> space_size (ctx run_tracks_tp_fid) (fst (Track, [true])) /\
  register "fid" (Track, [true]) 30 "tracks in fiducial area" false run_tracks_tp_fid
    = (run_tracks_tp_fid, Raise ShapeError).
Proof.
  assert (Hlen : length (snd (Track, [true]))
                 <> space_size (ctx run_tracks_tp_fid) (fst (Track, [true])))
    by (simpl; lia).
  split; [exact Hlen|].
  exact (register_mismatch_raises_ShapeError
           "fid" (Track, [true]) 30 "tracks in fiducial area" false
           run_tracks_tp_fid Hlen).
Defined.

Example register_mismatch_under_new_name :
  register "chi2" (Track, [true]) 50 "small chi2" true run_tracks_tp_fid
    = (run_tracks_tp_fid, Raise ShapeError).
Proof. reflexivity. Qed.

(** A fitting mask under a registered name and without [redo]: the entry is
    kept. *)
Lemma register_existing_without_redo_keeps
    (n : string) (m : tagged) (p : Z) (d : string) (r : Registry) :
  length (snd m) = space_size (ctx r) (fst m) ->
  has n (cuts r) = true -> register n m p d false r = (r, Ok tt).
Proof.
  intros Hlen Hh. unfold register, create.
  apply Nat.eqb_eq in Hlen. now rewrite Hlen, Hh.
Qed.

(** The only way [register] fails is the shape of the mask. *)
Lemma register_raises_only_on_mismatch
    (n : string) (m : tagged) (p : Z) (d : string) (redo : bool)
    (r r' : Registry) (e : exn) :
  register n m p d redo r = (r', Raise e) ->
  e = ShapeError /\ r' = r /\ length (snd m) <> space_size (ctx r) (fst m).
Proof.
  unfold register.
  destruct (create (ctx r) n m p d) as [k|e'] eqn:Hc.
  - destruct (has n (cuts r) && negb redo); discriminate.
  - intros [= <- <-]. apply create_Raise in Hc as [-> Hlen]. auto.
Qed.
End RegistryFacts.

(** * Further properties of [src/dut_analysis.py] *)

(** ** Loading and construction *)

Lemma try_open_Ok (w : World) (file_name plane : string) (f : h5obj) :
  DUTAnalysis.try_open w file_name plane = Ok f ->
  exists members t d,
    h5py_File w file_name = Ok members /\ f = Group members /\
    getitem f "Tracks" = Ok t /\ getitem f plane = Ok d.
Proof.
  unfold DUTAnalysis.try_open. intros H.
  apply bind_Ok_inv in H as (members & Hm & H).
  apply bind_Ok_inv in H as (t & Ht & H).
  apply bind_Ok_inv in H as (d & Hd & H).
  injection H as <-. exists members, t, d. auto.
Qed.

(** X1: a file that [load_file] returns without a warning is the file
    [h5py.File] opened, and it has the ['Tracks'] group and the group of the
    DUT's plane. *)
Theorem load_file_silent_result_is_checked_file
    (w : World) (file_name plane : string) (f : h5obj) :
  DUTAnalysis.load_file w file_name plane false = ([], Ok f) ->
  exists members t d,
    h5py_File w file_name = Ok members /\ f = Group members /\
    getitem f "Tracks" = Ok t /\ getitem f plane = Ok d.
Proof.
  unfold DUTAnalysis.load_file. simpl.
  destruct (Converter_run w) as [u|e]; [|discriminate].
  destruct (DUTAnalysis.try_open w file_name plane) as [g|e] eqn:Ht.
  - intros [= <-]. now apply try_open_Ok.
  - destruct e; discriminate.
Qed.

Lemma load_file_silent_result_is_checked_file_witness :
  DUTAnalysis.load_file (world_of run_members) "run12.hdf5" "Plane4" false
    = ([], Ok (Group run_members)) /\
  exists members t d,
    h5py_File (world_of run_members) "run12.hdf5" = Ok members /\
    Group run_members = Group members /\
    getitem (Group run_members) "Tracks" = Ok t /\
    getitem (Group run_members) "Plane4" = Ok d.
Proof.
  split; [reflexivity|].
  exact (load_file_silent_result_is_checked_file
           (world_of run_members) "run12.hdf5" "Plane4" (Group run_members) eq_refl).
Defined.

(** X2: [load_file] catches [KeyError] and [OSError] only: any other
    exception of [h5py.File] leaves it as it is, with no warning and without
    the dummy. *)
Theorem load_file_other_exception_propagates
    (w : World) (file_name plane : string) (e : exn) :
  Converter_run w = Ok tt ->
  h5py_File w file_name = Raise e ->
  e <> KeyError -> e <> OSError ->
  DUTAnalysis.load_file w file_name plane false = ([], Raise e).
Proof.
  intros Hc Hf Hk Ho. unfold DUTAnalysis.load_file, DUTAnalysis.try_open. simpl.
  rewrite Hc, Hf. simpl. destruct e; try reflexivity; congruence.
Qed.

Lemma load_file_other_exception_propagates_witness :
  DUTAnalysis.load_file
    {| Converter_run := Ok tt; h5py_File := fun _ => Raise ValueError;
       Dummy_load_file := Ok (Group []) |}
    "run12.hdf5" "Plane4" false
  = ([], Raise ValueError).
Proof.
  apply (load_file_other_exception_propagates
           {| Converter_run := Ok tt; h5py_File := fun _ => Raise ValueError;
              Dummy_load_file := Ok (Group []) |}
           "run12.hdf5" "Plane4" ValueError eq_refl eq_refl);
    discriminate.
Defined.

Lemma init_Ok_inv (plane : string) (f : h5obj) (ana : DUTAnalysis.t) :
  DUTAnalysis.init plane f = Ok ana ->
  DUTAnalysis.F ana = f /\ DUTAnalysis.Plane ana = plane /\
  getitem f plane = Ok (DUTAnalysis.Data ana) /\
  (c <- getitem (DUTAnalysis.Data ana) "Clusters" ;; x <- getitem c "X" ;; size x)
    = Ok (DUTAnalysis.N ana) /\
  (tr <- getitem f "Tracks" ;; x <- getitem tr "NTracks" ;; size x)
    = Ok (DUTAnalysis.NEvents ana) /\
  (tr <- getitem f "Tracks" ;; x <- getitem tr "Size" ;; size x)
    = Ok (DUTAnalysis.NTracks ana).
Proof.
  unfold DUTAnalysis.init. intros H.
  apply bind_Ok_inv in H as (data & Hd & H).
  apply bind_Ok_inv in H as (n & Hn & H).
  apply bind_Ok_inv in H as (nev & Hnev & H).
  apply bind_Ok_inv in H as (ntr & Hntr & H).
  injection H as <-. simpl. auto 10.
Qed.

(** X15: once the file has both groups, [__init__] never falls back to the
    dummy: whatever else the file lacks comes out of the INFO block as its
    exception, with no warning printed. *)
Theorem init_data_checked_file_is_used
    (w : World) (file_name plane : string)
    (members : list (string * h5obj)) (t d : h5obj) :
  Converter_run w = Ok tt ->
  h5py_File w file_name = Ok members ->
  assoc "Tracks" members = Some t ->
  assoc plane members = Some d ->
  init_data w file_name plane false
    = ([], fmap Some (DUTAnalysis.init plane (Group members))).
Proof.
  intros Hc Hf Ht Hd. unfold init_data.
  now rewrite (load_file_complete_file w file_name plane members t d Hc Hf Ht Hd).
Qed.

Lemma init_data_checked_file_is_used_witness :
  init_data (world_of shallow_file) "run12.hdf5" "Plane4" false
    = ([], Raise KeyError).
Proof.
  exact (init_data_checked_file_is_used (world_of shallow_file) "run12.hdf5" "Plane4"
           shallow_file (Group [])
           (Group [ ("Clusters", Group [ ("X", Dataset [10; 12]%Z) ]) ])
           eq_refl eq_refl eq_refl eq_refl).
Defined.



(** ** The getters *)

(** X5: for names made of letters and digits, a group that the plane's data
    lacks, or a key that the group lacks, makes [get_data] raise [KeyError]
    for every cut, bool or not, before the cut object is called. *)
Theorem get_data_missing_column_raises_KeyError
    (Cut : cut -> ndarray -> option nat -> res ndarray)
    (array_of_group : list (string * h5obj) -> res ndarray)
    (self : DUTAnalysis.t) (members : list (string * h5obj))
    (grp : string) (key : option string) (c : cutarg) (pl : option nat) :
  DUTAnalysis.Data self = Group members ->
  plain_name grp = true ->
  assoc grp members = None \/
  (exists ms k, key = Some k /\ plain_name k = true /\
                assoc grp members = Some (Group ms) /\ assoc k ms = None) ->
  DUTAnalysis.get_data Cut array_of_group self grp key c pl = Raise KeyError.
Proof.
  intros HD _ Hmiss. unfold DUTAnalysis.get_data, DUTAnalysis.column.
  rewrite HD. simpl.
  destruct Hmiss as [-> | (ms & k & -> & _ & -> & Hk)]; simpl; [reflexivity|].
  now rewrite Hk.
Qed.

Lemma get_data_missing_column_raises_KeyError_witness :
  plain_name "Clusters" = true /\ plain_name "Y" = true /\
  DUTAnalysis.get_data (fun _ a _ => Ok a) (fun _ => Ok []) run_ana
    "Clusters" (Some "Y") (ArgCut CNone) None
  = Raise KeyError.
Proof.
  split; [reflexivity|]. split; [reflexivity|].
  apply (get_data_missing_column_raises_KeyError
           (fun _ a _ => Ok a) (fun _ => Ok []) run_ana
           [ ("Clusters", Group [ ("X", Dataset [10; 12]%Z);
                                  ("Charge", Dataset [70; 90]%Z) ]);
             ("Mask", Dataset [0; 1]%Z) ]
           "Clusters" (Some "Y") (ArgCut CNone) None eq_refl eq_refl).
  right. exists [ ("X", Dataset [10; 12]%Z); ("Charge", Dataset [70; 90]%Z) ], "Y".
  split; [reflexivity|]. split; [reflexivity|]. split; reflexivity.
Defined.

Example path_key_is_not_a_plain_name : plain_name "Clusters/X" = false.
Proof. reflexivity. Qed.

Lemma size_Ok_Dataset (o : h5obj) (n : nat) :
  size o = Ok n -> exists a, o = Dataset a /\ length a = n.
Proof.
  destruct o as [a|ms]; simpl; intros [= <-]. now exists a.
Qed.

(** X6: on an analysis that [__init__] built, [get_x] with a bool cut
    returns an array of [Ana.N] entries: [N] is the length of the unselected
    X column. *)
Theorem get_x_unselected_has_N_entries
    (Cut : cut -> ndarray -> option nat -> res ndarray)
    (array_of_group : list (string * h5obj) -> res ndarray)
    (plane : string) (f : h5obj) (ana : DUTAnalysis.t) (b : bool) (pl : option nat) :
  DUTAnalysis.init plane f = Ok ana ->
  exists a, get_x Cut array_of_group ana (ArgBool b) pl = Ok a /\
            length a = DUTAnalysis.N ana.
Proof.
  intros Hinit. apply init_Ok_inv in Hinit as (_ & _ & _ & Hn & _).
  apply bind_Ok_inv in Hn as (c & Hc & Hn).
  apply bind_Ok_inv in Hn as (x & Hx & Hn).
  apply size_Ok_Dataset in Hn as (a & -> & Hlen).
  exists a. split; [|assumption].
  unfold get_x, DUTAnalysis.get_data, DUTAnalysis.column.
  rewrite Hc. simpl. rewrite Hx. reflexivity.
Qed.

Lemma get_x_unselected_has_N_entries_witness :
  DUTAnalysis.init "Plane4" run_file = Ok run_ana /\
  exists a, get_x (fun _ _ _ => Raise IndexError) (fun _ => Raise ValueError)
              run_ana (ArgBool true) None = Ok a /\
            length a = DUTAnalysis.N run_ana.
Proof.
  split; [reflexivity|].
  exact (get_x_unselected_has_N_entries
           (fun _ _ _ => Raise IndexError) (fun _ => Raise ValueError)
           "Plane4" run_file run_ana true None eq_refl).
Defined.

(** X7: [get_mask] returns the plane's ['Mask'] dataset whole, whatever the
    cut object is, and raises [KeyError] when the plane's group has no
    ['Mask']. *)
Theorem get_mask_is_the_Mask_dataset
    (Cut : cut -> ndarray -> option nat -> res ndarray)
    (array_of_group : list (string * h5obj) -> res ndarray)
    (self : DUTAnalysis.t) (members : list (string * h5obj)) :
  DUTAnalysis.Data self = Group members ->
  get_mask Cut array_of_group self =
    match assoc "Mask" members with
    | Some (Dataset m) => Ok m
    | Some (Group ms) => array_of_group ms
    | None => Raise KeyError
    end.
Proof.
  intros HD. unfold get_mask, DUTAnalysis.get_data, DUTAnalysis.column.
  rewrite HD. simpl.
  destruct (assoc "Mask" members) as [[m|ms]|]; simpl; try reflexivity.
  now destruct (array_of_group ms).
Qed.

Lemma get_mask_is_the_Mask_dataset_witness :
  get_mask (fun _ _ _ => Raise IndexError) (fun _ => Raise ValueError) run_ana
    = Ok [0; 1]%Z.
Proof.
  exact (get_mask_is_the_Mask_dataset
           (fun _ _ _ => Raise IndexError) (fun _ => Raise ValueError) run_ana
           [ ("Clusters", Group [ ("X", Dataset [10; 12]%Z);
                                  ("Charge", Dataset [70; 90]%Z) ]);
             ("Mask", Dataset [0; 1]%Z) ] eq_refl).
Defined.

(** ** The size of a selection *)

Lemma select_length {A : Type} (m : list bool) : forall (a : list A),
  length m = length a -> length (select m a) = count_true m.
Proof.
  unfold count_true.
  induction m as [|b m IH]; intros [|x a] H; simpl in *; try discriminate;
    [reflexivity|].
  injection H as H. destruct b; simpl; now rewrite IH.
Qed.

Lemma getitem_nd_Mask_Ok {A : Type} (a r : list A) (m : list bool) :
  getitem_nd a (Mask m) = Ok r ->
  length m = length a /\ r = select m a /\ length r = count_true m.
Proof.
  unfold getitem_nd. destruct (length m =? length a) eqn:E; [|discriminate].
  intros [= <-]. apply Nat.eqb_eq in E. repeat split; [assumption|].
  now apply select_length.
Qed.

Lemma getitem_nd_Mask_eq {A : Type} (a : list A) (m : list bool) :
  length m = length a -> getitem_nd a (Mask m) = Ok (select m a).
Proof.
  intros H. unfold getitem_nd. apply Nat.eqb_eq in H. now rewrite H.
Qed.

Lemma fmap_RData_Ok (m : res ndarray) (a : ndarray) :
  fmap TrackCut.RData m = Ok (TrackCut.RData a) -> m = Ok a.
Proof. destruct m; simpl; intros H; [now injection H as -> | discriminate]. Qed.

(** X8: whenever [TrackCut.__call__] returns data for a cut that the base
    class resolved to a boolean array, the data has as many entries as the
    cut has [True]s, on each of its three paths. *)
Theorem call_returns_one_entry_per_True
    (super_call : cut -> res sel)
    (ev2trk : ndarray -> res ndarray)
    (trk2pl : ndarray -> option nat -> res ndarray)
    (Ana : DUTAnalysis.t) (c : cut) (m : list bool)
    (data a : ndarray) (pl : option nat) :
  super_call c = Ok (Mask m) ->
  TrackCut.call super_call ev2trk trk2pl Ana c (Some data) pl
    = Ok (TrackCut.RData a) ->
  length a = count_true m.
Proof.
  intros Hk. unfold TrackCut.call. rewrite Hk. simpl.
  destruct (length data =? DUTAnalysis.NEvents Ana).
  - destruct (ev2trk data) as [t|e]; simpl; [|discriminate].
    intros H. apply fmap_RData_Ok in H. now apply getitem_nd_Mask_Ok in H.
  - destruct (length m =? DUTAnalysis.N Ana).
    + destruct (trk2pl data pl) as [p|e]; simpl; [|discriminate].
      intros H. apply fmap_RData_Ok in H. now apply getitem_nd_Mask_Ok in H.
    + intros H. apply fmap_RData_Ok in H. now apply getitem_nd_Mask_Ok in H.
Qed.

Lemma call_returns_one_entry_per_True_witness :
  DUTCut.call run_tracks (CMask [false; true]) = Ok (Mask [false; true]) /\
  TrackCut.call (DUTCut.call run_tracks) (DUTCut.ev2trk run_ctx) run_trk2pl
    run_ana (CMask [false; true]) (Some [1; 2; 3]%Z) None
    = Ok (TrackCut.RData [3]%Z) /\
  length [3]%Z = count_true [false; true].
Proof.
  split; [reflexivity|]. split; [reflexivity|].
  exact (call_returns_one_entry_per_True
           (DUTCut.call run_tracks) (DUTCut.ev2trk run_ctx) run_trk2pl
           run_ana (CMask [false; true]) [false; true] [1; 2; 3]%Z [3]%Z None
           eq_refl eq_refl).
Defined.

(** ** [init_planes] *)

Lemma range_length (n : Z) : length (range n) = Z.to_nat n.
Proof. unfold range. now rewrite length_map, length_seq. Qed.

Lemma range_nth (n : Z) (i : nat) (z : Z) :
  nth_error (range n) i = Some z -> z = Z.of_nat i.
Proof.
  unfold range. rewrite nth_error_map.
  destruct (nth_error (List.seq 0 (Z.to_nat n)) i) as [k|] eqn:E; [|discriminate].
  intros [= <-].
  assert (Hi : i < length (List.seq 0 (Z.to_nat n)))
    by (apply nth_error_Some; congruence).
  rewrite length_seq in Hi.
  apply nth_error_nth with (d := 0) in E.
  rewrite seq_nth in E by assumption. now subst k.
Qed.

Lemma seq_from (b : nat) : forall a, List.seq a b = map (Nat.add a) (List.seq 0 b).
Proof.
  induction b as [|b IH]; intros a; [reflexivity|].
  simpl. rewrite Nat.add_0_r. f_equal.
  rewrite (IH (S a)), (IH 1), map_map. apply map_ext. intros k. lia.
Qed.

Lemma range_app (a b : Z) :
  (0 <= a)%Z -> (0 <= b)%Z ->
  range (a + b) = (range a ++ map (fun i => (a + i)%Z) (range b))%list.
Proof.
  intros Ha Hb. unfold range.
  rewrite Z2Nat.inj_add by assumption. rewrite seq_app, map_app. f_equal.
  simpl. rewrite (seq_from (Z.to_nat b) (Z.to_nat a)), !map_map.
  apply map_ext. intros k. lia.
Qed.

Lemma range_In (n z : Z) : In z (range n) -> (0 <= z < n)%Z.
Proof.
  unfold range. rewrite in_map_iff. intros (k & <- & Hk).
  apply in_seq in Hk. lia.
Qed.

(** X9: for plane counts that are not negative, [init_planes] returns the
    [n_tel] telescope planes numbered from 0, followed by the [n_dut] DUT
    planes numbered from [n_tel]. *)
Theorem init_planes_telescope_then_dut (n_tel n_dut : Z) :
  (0 <= n_tel)%Z -> (0 <= n_dut)%Z ->
  init_planes n_tel n_dut =
    (map (fun i => {| Number := i; Section_ := "TELESCOPE" |}) (range n_tel)
     ++ map (fun i => {| Number := n_tel + i; Section_ := "DUT" |}) (range n_dut))%list.
Proof.
  intros Ht Hd. unfold init_planes.
  rewrite (range_app n_tel n_dut Ht Hd), map_app, map_map. f_equal.
  - apply map_ext_in. intros i Hi. apply range_In in Hi.
    assert (E : (i <? n_tel)%Z = true) by (apply Z.ltb_lt; lia). now rewrite E.
  - apply map_ext_in. intros i Hi. apply range_In in Hi.
    assert (E : (n_tel + i <? n_tel)%Z = false) by (apply Z.ltb_ge; lia).
    now rewrite E.
Qed.

Lemma init_planes_telescope_then_dut_witness :
  init_planes 2 1 =
    [ {| Number := 0; Section_ := "TELESCOPE" |};
      {| Number := 1; Section_ := "TELESCOPE" |};
      {| Number := 2; Section_ := "DUT" |} ].
Proof.
  exact (init_planes_telescope_then_dut 2 1 ltac:(lia) ltac:(lia)).
Defined.

(** X10: for any two counts [init_planes] returns [n_tel + n_dut] planes
    (none when the sum is not positive), and for every [i] below that number
    [Planes[i]] is the plane with number [i], a telescope plane exactly when
    [i < n_tel]. *)
Theorem init_planes_indexed_by_number (n_tel n_dut : Z) :
  length (init_planes n_tel n_dut) = Z.to_nat (n_tel + n_dut) /\
  forall i, i < Z.to_nat (n_tel + n_dut) ->
    exists p, nth_error (init_planes n_tel n_dut) i = Some p /\
              Number p = Z.of_nat i /\
              (Section_ p = "TELESCOPE" <-> (Z.of_nat i < n_tel)%Z).
Proof.
  assert (Hlen : length (init_planes n_tel n_dut) = Z.to_nat (n_tel + n_dut))
    by (unfold init_planes; now rewrite length_map, range_length).
  split; [exact Hlen|]. intros i Hi.
  destruct (nth_error (init_planes n_tel n_dut) i) as [p|] eqn:E.
  - exists p. split; [reflexivity|].
    unfold init_planes in E. rewrite nth_error_map in E.
    destruct (nth_error (range (n_tel + n_dut)) i) as [z|] eqn:Ez; [|discriminate].
    injection E as <-. simpl.
    pose proof (range_nth _ _ _ Ez) as ->. split; [reflexivity|].
    destruct (Z.of_nat i <? n_tel)%Z eqn:L.
    + split; [intros _; now apply Z.ltb_lt | reflexivity].
    + split; [discriminate|]. intros H. apply Z.ltb_lt in H. congruence.
  - apply nth_error_None in E. lia.
Qed.

Lemma init_planes_indexed_by_number_witness :
  length (init_planes 2 1) = 3 /\
  exists p, nth_error (init_planes 2 1) 2 = Some p /\
            Number p = 2%Z /\
            (Section_ p = "TELESCOPE" <-> (2 < 2)%Z).
Proof.
  split; [reflexivity|].
  exact (proj2 (init_planes_indexed_by_number 2 1) 2 ltac:(simpl; lia)).
Defined.

Example init_planes_negative_dut_count : init_planes 3 (-1) =
  [ {| Number := 0; Section_ := "TELESCOPE" |};
    {| Number := 1; Section_ := "TELESCOPE" |} ].
Proof. reflexivity. Qed.

(** ** [expand_inpixel] *)

Lemma mask_and_length (a : list bool) : forall b,
  length (mask_and a b) = Nat.min (length a) (length b).
Proof.
  induction a as [|x a IH]; intros [|y b]; simpl; try reflexivity.
  now rewrite IH.
Qed.

Section InPixelFacts.
Variable V : Type.
Variables lt_half ge_half gt_half : V -> bool.
Variables add1 sub1 : V -> V.
Variables mod1 cell_x cell_y : V -> V.

Ltac lens :=
  repeat rewrite ?length_app, ?length_map, ?mask_and_length; lia.

(** X11: on coordinate arrays of one length (and an [e] of that length, if
    given) [expand_inpixel] returns, but its x and y arrays agree in length
    only if as many reduced y are [>= .5] as are [> .5]: the y edge is cut
    with [y > .5] for x and with [y >= .5] for y and e.  The e array has the
    length of the y array. *)
Theorem expand_inpixel_lengths
    (x y : list V) (e : option (list V)) (cell : bool) :
  length x = length y ->
  (forall ev, e = Some ev -> length ev = length x) ->
  exists xf yf ef,
    expand_inpixel V lt_half ge_half gt_half add1 sub1 mod1 cell_x cell_y x y e cell
      = Ok (xf, yf, ef) /\
    length xf + count_true (map ge_half (map (if cell then cell_y else mod1) y))
      = length yf + count_true (map gt_half (map (if cell then cell_y else mod1) y)) /\
    match e, ef with
    | Some _, Some l => length l = length yf
    | None, None => True
    | _, _ => False
    end.
Proof.
  intros Hxy He. unfold expand_inpixel.
  set (x' := map (if cell then cell_x else mod1) x).
  set (y' := map (if cell then cell_y else mod1) y).
  assert (Hx' : length x' = length x) by apply length_map.
  assert (Hy' : length y' = length x) by (unfold y'; rewrite length_map; lia).
  destruct e as [ev|]; cbn [bind].
  - pose proof (He ev eq_refl) as Hev.
    rewrite !(getitem_nd_Mask_eq x') by lens.
    rewrite !(getitem_nd_Mask_eq y') by lens.
    rewrite !(getitem_nd_Mask_eq ev) by lens. cbn [bind].
    eexists _, _, _. split; [reflexivity|].
    repeat rewrite ?length_app, ?length_map.
    rewrite !select_length by lens. split; lia.
  - rewrite !(getitem_nd_Mask_eq x') by lens.
    rewrite !(getitem_nd_Mask_eq y') by lens. cbn [bind].
    eexists _, _, _. split; [reflexivity|].
    repeat rewrite ?length_app, ?length_map.
    rewrite !select_length by lens. split; [lia | exact I].
Qed.

(** X12: coordinate arrays of different lengths make [expand_inpixel] raise
    [IndexError], at the first mask of y applied to x. *)
Theorem expand_inpixel_length_mismatch_raises
    (x y : list V) (e : option (list V)) (cell : bool) :
  length x <> length y ->
  expand_inpixel V lt_half ge_half gt_half add1 sub1 mod1 cell_x cell_y x y e cell
    = Raise IndexError.
Proof.
  intros Hxy. unfold expand_inpixel.
  set (x' := map (if cell then cell_x else mod1) x).
  set (y' := map (if cell then cell_y else mod1) y).
  assert (Hx' : length x' = length x) by apply length_map.
  assert (Hy' : length y' = length y) by apply length_map.
  rewrite (getitem_nd_Mask_eq x' (map lt_half x')) by lens.
  rewrite (getitem_nd_Mask_eq x' (map ge_half x')) by lens.
  cbn [bind]. unfold getitem_nd at 1.
  assert (E : (length (map lt_half y') =? length x') = false)
    by (apply Nat.eqb_neq; rewrite length_map; lia).
  now rewrite E.
Qed.
End InPixelFacts.

Lemma expand_inpixel_lengths_witness :
  exists xf yf ef,
    expand_inpixel Z (fun v => v <? 5)%Z (fun v => 5 <=? v)%Z (fun v => 5 <? v)%Z
      (fun v => v + 10)%Z (fun v => v - 10)%Z
      (fun v => v mod 10)%Z (fun v => v mod 10)%Z (fun v => v mod 10)%Z
      [12; 7]%Z [5; 21]%Z None false
      = Ok (xf, yf, ef) /\
    length xf + 1 = length yf + 0 /\
    match @None (list Z), ef with
    | Some _, Some l => length l = length yf
    | None, None => True
    | _, _ => False
    end.
Proof.
  exact (expand_inpixel_lengths Z (fun v => v <? 5)%Z (fun v => 5 <=? v)%Z
           (fun v => 5 <? v)%Z (fun v => v + 10)%Z (fun v => v - 10)%Z
           (fun v => v mod 10)%Z (fun v => v mod 10)%Z (fun v => v mod 10)%Z
           [12; 7]%Z [5; 21]%Z None false eq_refl
           ltac:(intros ev H; discriminate H)).
Defined.

(** In tenths of a pixel: the point with y = 0.5 is copied to the y array
    but not to the x array. *)
Example expand_inpixel_y_at_half :
  expand_inpixel Z (fun v => v <? 5)%Z (fun v => 5 <=? v)%Z (fun v => 5 <? v)%Z
    (fun v => v + 10)%Z (fun v => v - 10)%Z
    (fun v => v mod 10)%Z (fun v => v mod 10)%Z (fun v => v mod 10)%Z
    [12; 7]%Z [5; 21]%Z None false
  = Ok ([2; 7; 12; -3; 7; 12; -3]%Z, [5; 1; 5; 1; 11; -5; -5; 11]%Z, None).
Proof. reflexivity. Qed.

Lemma expand_inpixel_length_mismatch_raises_witness :
  expand_inpixel Z (fun v => v <? 5)%Z (fun v => 5 <=? v)%Z (fun v => 5 <? v)%Z
    (fun v => v + 10)%Z (fun v => v - 10)%Z
    (fun v => v mod 10)%Z (fun v => v mod 10)%Z (fun v => v mod 10)%Z
    [12; 7]%Z [5]%Z None false
  = Raise IndexError.
Proof.
  apply (expand_inpixel_length_mismatch_raises Z (fun v => v <? 5)%Z
           (fun v => 5 <=? v)%Z (fun v => 5 <? v)%Z (fun v => v + 10)%Z
           (fun v => v - 10)%Z (fun v => v mod 10)%Z (fun v => v mod 10)%Z
           (fun v => v mod 10)%Z [12; 7]%Z [5]%Z None false).
  simpl. lia.
Defined.

(** ** [fit_langau] *)

Section LangauFacts.
Variable Fit : Type.
Variable Range : Type.
Variable Langau : Z -> option Range -> Fit.
Variable chi2_exceeds : Fit -> bool.

(** X13: with [Draw.Count] not negative, [fit_langau] returns after at most
    [80 - nconv] nested calls.  The fit it returns either passes the chi2
    test or was made with at least 80 convolutions; it is the first fit, or
    a fit with at least 5 convolutions more and without the [fit_range];
    [Draw.Count] is left at 0, and every level hands that same fit to
    [Draw.add]. *)
Theorem fit_langau_returns (fuel : nat) :
  forall (nconv : Z) (fit_range : option Range) (count : Z),
  (0 <= count)%Z ->
  Z.to_nat (80 - nconv) < fuel ->
  exists r n fr,
    fit_langau Fit Range Langau chi2_exceeds fuel nconv fit_range count = Some r /\
    fit Fit r = Langau n fr /\
    ((n = nconv /\ fr = fit_range) \/ ((nconv + 5 <= n)%Z /\ fr = None)) /\
    (chi2_exceeds (fit Fit r) = false \/ (80 <= n)%Z) /\
    Count Fit r = 0%Z /\
    added Fit r <> [] /\
    Forall (eq (fit Fit r)) (added Fit r).
Proof.
  induction fuel as [|fuel IH]; intros nconv fit_range count Hc Hfuel; [lia|].
  simpl.
  destruct (chi2_exceeds (Langau nconv fit_range) && (nconv <? 80)%Z) eqn:Hcond.
  - apply andb_true_iff in Hcond as [_ Hlt]. apply Z.ltb_lt in Hlt.
    destruct (IH (nconv + (count + 5))%Z None (count + 5)%Z) as
      (r & n & fr & -> & Hfit & Hwhich & Hpost & _ & Hne & Hall); [lia|lia|].
    eexists _, n, None. split; [reflexivity|]. simpl.
    assert (Hfr : fr = None) by (destruct Hwhich as [[_ ->] | [_ ->]]; reflexivity).
    subst fr. repeat split.
    + assumption.
    + right. split; [|reflexivity]. destruct Hwhich as [[-> _] | [H _]]; lia.
    + assumption.
    + intros H. now apply app_eq_nil in H as [_ H].
    + apply Forall_app. split; [assumption | now constructor].
  - exists {| fit := Langau nconv fit_range; Count := 0; added := [Langau nconv fit_range] |},
           nconv, fit_range.
    split; [reflexivity|]. simpl. repeat split.
    + now left.
    + apply andb_false_iff in Hcond as [H | H]; [now left | right].
      now apply Z.ltb_ge in H.
    + discriminate.
    + now constructor.
Qed.

Lemma fit_langau_S (fuel : nat) (nconv : Z) (fit_range : option Range) (count : Z) :
  fit_langau Fit Range Langau chi2_exceeds (S fuel) nconv fit_range count =
    if chi2_exceeds (Langau nconv fit_range) && (nconv <? 80)%Z then
      match fit_langau Fit Range Langau chi2_exceeds fuel
              (nconv + (count + 5))%Z None (count + 5)%Z with
      | Some r => Some {| fit := fit Fit r; Count := 0;
                          added := (added Fit r ++ [fit Fit r])%list |}
      | None => None
      end
    else Some {| fit := Langau nconv fit_range; Count := 0;
                 added := [Langau nconv fit_range] |}.
Proof. reflexivity. Qed.

(** More fuel than needed changes nothing. *)
Lemma fit_langau_more_fuel (fuel : nat) :
  forall nconv fit_range count r,
  fit_langau Fit Range Langau chi2_exceeds fuel nconv fit_range count = Some r ->
  fit_langau Fit Range Langau chi2_exceeds (S fuel) nconv fit_range count = Some r.
Proof.
  induction fuel as [|fuel IH]; intros nconv fit_range count r H; [discriminate|].
  rewrite fit_langau_S in H. rewrite (fit_langau_S (S fuel)).
  destruct (chi2_exceeds (Langau nconv fit_range) && (nconv <? 80)%Z); [|assumption].
  destruct (fit_langau Fit Range Langau chi2_exceeds fuel
              (nconv + (count + 5))%Z None (count + 5)%Z) as [r'|] eqn:E;
    [|discriminate].
  now rewrite (IH _ _ _ _ E).
Qed.
End LangauFacts.

Lemma fit_langau_returns_witness :
  exists r n fr,
    fit_langau Z unit (fun n _ => n) (fun _ => true) 51 30 (Some tt) 0 = Some r /\
    fit Z r = (fun (n : Z) (_ : option unit) => n) n fr /\
    ((n = 30%Z /\ fr = Some tt) \/ ((30 + 5 <= n)%Z /\ fr = None)) /\
    ((fun _ : Z => true) (fit Z r) = false \/ (80 <= n)%Z) /\
    Count Z r = 0%Z /\
    added Z r <> [] /\
    Forall (eq (fit Z r)) (added Z r).
Proof.
  exact (fit_langau_returns Z unit (fun n _ => n) (fun _ => true) 51 30 (Some tt) 0
           ltac:(lia) ltac:(simpl; lia)).
Defined.

(** A fit that never passes, from the default 30 convolutions: 35, 45, 60
    and 80 are tried next, and the fit with 80 is added five times. *)
Example fit_langau_never_passing :
  fit_langau Z unit (fun n _ => n) (fun _ => true) 51 30 (Some tt) 0
  = Some {| fit := 80%Z; Count := 0; added := [80; 80; 80; 80; 80]%Z |}.
Proof. reflexivity. Qed.

(** ** [show_structure] *)

Lemma show_groups_returns (dut_key : string) (n : nat) (l : list (string * h5obj)) :
  forall i0,
  (snd (show_groups dut_key n i0 l) = Ok tt <->
   forall key g, In (key, g) l -> listed dut_key key = true -> exists m, g = Group m) /\
  (snd (show_groups dut_key n i0 l) = Ok tt \/
   snd (show_groups dut_key n i0 l) = Raise AttributeError).
Proof.
  induction l as [|[key grp] l IH]; intros i0; simpl.
  - split; [|now left]. split; [intros _ key g [] | reflexivity].
  - destruct (IH (S i0)) as [IHiff IHor].
    destruct (listed dut_key key) eqn:Hl.
    + destruct grp as [a|ms]; simpl.
      * split; [|now right]. split; [discriminate|].
        intros H. destruct (H key (Dataset a) (or_introl eq_refl) Hl) as [m Hm].
        discriminate.
      * destruct (show_groups dut_key n (S i0) l) as [out' r] eqn:E. simpl in *.
        split; [|assumption]. rewrite IHiff. split.
        -- intros H k g [[= <- <-] | Hin] Hk; [now exists ms | now apply (H k g)].
        -- intros H k g Hin. apply H. now right.
    + split; [|assumption]. rewrite IHiff. split.
      * intros H k g [[= <- <-] | Hin] Hk; [congruence | now apply (H k g)].
      * intros H k g Hin. apply H. now right.
Qed.

(** X14: [show_structure] gets to its end exactly when every top-level entry
    it lists (a name without ['Plane'], ['Plane0'], or the DUT's plane) is a
    group; a listed dataset makes it raise [AttributeError].  The groups of
    the other planes are not looked into. *)
Theorem show_structure_returns_iff_listed_are_groups
    (dut_key : string) (self : DUTAnalysis.t) (ms : list (string * h5obj)) :
  DUTAnalysis.F self = Group ms ->
  (snd (show_structure dut_key self) = Ok tt <->
   forall key g, In (key, g) ms -> listed dut_key key = true -> exists m, g = Group m) /\
  (snd (show_structure dut_key self) = Ok tt \/
   snd (show_structure dut_key self) = Raise AttributeError).
Proof.
  intros HF. unfold show_structure. rewrite HF. simpl.
  pose proof (show_groups_returns dut_key (length ms) ms 0) as H.
  destruct (show_groups dut_key (length ms) 0 ms) as [out r]. exact H.
Qed.

Lemma show_structure_returns_iff_listed_are_groups_witness :
  snd (show_structure "Plane4" run_ana) = Ok tt.
Proof.
  apply (proj1 (show_structure_returns_iff_listed_are_groups "Plane4" run_ana
                  run_members eq_refl)).
  intros key g [[= <- <-] | [[= <- <-] | []]] _; eexists; reflexivity.
Defined.

Example show_structure_run_ana :
  show_structure "Plane4" run_ana =
  ([ "."; "├── Tracks"; "│   ├── NTracks"; "│   ├── Size";
     "├── Plane4"; "    ├── Clusters"; "│   │   ├── X"; "│   │   ├── Charge";
     "    ├── Mask" ], Ok tt).
Proof. reflexivity. Qed.

Example show_structure_skips_other_planes :
  show_structure "Plane4"
    (DUTAnalysis.mk (Group [ ("Plane2", Dataset []); ("Event", Group []) ])
       "Plane4" (Group []) 0 0 0)
  = ([ "."; "├── Event" ], Ok tt).
Proof. reflexivity. Qed.
